(** * dotenvx-interactive-cli: file discovery, selection and subprocess dispatch

    A shallow embedding of the TypeScript sources of the interactive
    front-end over the [dotenvx] command line tool, and the properties of
    its discovery / selection / dispatch workflow.

    The repository holds several generations of [index.ts].  Embedded here:
    - [src/index.ts] (first document), built on [zx]: module [Zx];
    - [unnamed/part_001], built on [child_process.spawn]: module
      [NodeSpawn];
    - [unnamed/part_000] (first document), built on the Bun shell: module
      [BunShell];
    - [src/index.ts] (second document), the menu-only Bun program: module
      [BunMenu];
    - [unnamed/part_000] (second document), built on [@effect/cli]: module
      [EffectCli], from the handlers on; the parsing of the command line is
      the library's and is not embedded.
    [findEnvFiles] and [selectFiles] have the same text in the first three
    and are embedded once.  The [SIGINT] handlers are left out.

    Two documents store their pictographs as the Mac Roman reading of the
    UTF-8 bytes: [src/index.ts] (first document), where [Zx] writes the
    pictographs, and [unnamed/part_000] (second document), where
    [EffectCli] keeps the text as stored.

    A run is a function of its environment ([World]: arguments, working
    directory, what the operator does at the prompts, what a child process
    does) to an exit status and a trace ([Outcome]).  [console.time] only
    starts a timer and is left out; colours are left out as well. *)

From Stdlib Require Import String Ascii List Bool ZArith.
Import ListNotations.
Open Scope string_scope.

(** ** JavaScript string and array built-ins used by the sources *)

(** [s.endsWith(suffix)]: some tail of [s] is [suffix]. *)
Fixpoint endsWith (s suffix : string) : bool :=
  String.eqb s suffix ||
  match s with
  | EmptyString => false
  | String _ s' => endsWith s' suffix
  end.

(** [s.startsWith(p)]. *)
Definition startsWith (s p : string) : bool := String.prefix p s.

(** [arr.includes(x)] on an array of strings. *)
Definition includes (arr : list string) (x : string) : bool :=
  existsb (String.eqb x) arr.

(** [arr.join(sep)]. *)
Fixpoint join (sep : string) (arr : list string) : string :=
  match arr with
  | [] => EmptyString
  | [x] => x
  | x :: rest => x ++ sep ++ join sep rest
  end.

(** The double quote character. *)
Definition quote : string := String (ascii_of_nat 34) EmptyString.

(** The line feed of a template literal. *)
Definition newline : string := String (ascii_of_nat 10) EmptyString.

(** [x ?? d]: the nullish coalescing operator. *)
Definition nullish {A : Type} (x : option A) (d : A) : A :=
  match x with Some v => v | None => d end.

Notation "x ?? d" := (nullish x d) (at level 45, left associativity).

(** ** The [glob] package, as far as [findEnvFiles] uses it *)

(** An entry of the working directory. *)
Record DirEntry := mkEntry { name : string; isDirectory : bool }.

Definition regularFile (n : string) : DirEntry := mkEntry n false.
Definition directory (n : string) : DirEntry := mkEntry n true.

Definition Directory := list DirEntry.

(** No path separator in a string; names of directory entries have none. *)
Fixpoint noSlash (s : string) : bool :=
  match s with
  | EmptyString => true
  | String c s' => negb (Ascii.eqb c "/") && noSlash s'
  end.

(** Matching of one path portion against a pattern of literal characters
    and [*]; a [*] stands for any run of characters other than [/].  The
    patterns of the sources either begin with a literal dot or are ignore
    patterns (matched by [glob] with [dot: true]), so the rule that keeps
    [*] from matching a leading dot never applies.  Matching is case
    sensitive, [glob]'s default except on macOS and Windows. *)
Fixpoint minimatch (pat : string) : string -> bool :=
  match pat with
  | EmptyString =>
      fun s => match s with EmptyString => true | String _ _ => false end
  | String p pat' =>
      if Ascii.eqb p "*" then
        fix star (s : string) : bool :=
          minimatch pat' s ||
          match s with
          | EmptyString => false
          | String c s' => negb (Ascii.eqb c "/") && star s'
          end
      else
        fun s =>
          match s with
          | EmptyString => false
          | String c s' => Ascii.eqb p c && minimatch pat' s'
          end
  end.

(** A pattern without [*]. *)
Fixpoint literal (pat : string) : bool :=
  match pat with
  | EmptyString => true
  | String c pat' => negb (Ascii.eqb c "*") && literal pat'
  end.

Record GlobOptions := { ignore : list string; nodir : bool }.

(** [glob(pattern, options)] in the working directory [cwd]: the names, in
    enumeration order, of the entries that match [pattern], match no
    [ignore] pattern and, under [nodir], are not directories. *)
Definition glob (pattern : string) (options : GlobOptions) (cwd : Directory)
  : list string :=
  map name
    (filter
       (fun e =>
          minimatch pattern (name e)
          && negb (existsb (fun ig => minimatch ig (name e)) (ignore options))
          && negb (nodir options && isDirectory e))
       cwd).

(** ** File discovery *)

(** [findEnvFiles] (src/index.ts 60-70, part_001 70-78, part_000 22-30). *)
Definition findEnvFiles (cwd : Directory) : list string :=
  let files :=
    glob ".env*"
      {| ignore := [".env.keys"; ".env.keys.json"; "*.vault"]; nodir := true |}
      cwd in
  filter
    (fun file => negb (endsWith file ".keys") && negb (endsWith file ".vault"))
    files.

(** The test [findEnvFiles] applies to one entry, all stages together. *)
Definition kept (e : DirEntry) : bool :=
  minimatch ".env*" (name e)
  && negb (existsb (fun ig => minimatch ig (name e))
             [".env.keys"; ".env.keys.json"; "*.vault"])
  && negb (true && isDirectory e)
  && (negb (endsWith (name e) ".keys") && negb (endsWith (name e) ".vault")).

(** The discovery rule in the words of the specification: the regular
    files whose name has the environment-file prefix, minus the key file,
    its JSON variant and any vault-suffixed file. *)
Definition spec_discover (cwd : Directory) : list string :=
  filter
    (fun n =>
       startsWith n ".env"
       && negb (String.eqb n ".env.keys")
       && negb (String.eqb n ".env.keys.json")
       && negb (endsWith n ".vault"))
    (map name (filter (fun e => negb (isDirectory e)) cwd)).

(** What the code keeps: as above, but every name ending in [.keys] goes,
    not just the key file. *)
Definition isCandidate (n : string) : bool :=
  startsWith n ".env"
  && negb (endsWith n ".keys")
  && negb (String.eqb n ".env.keys.json")
  && negb (endsWith n ".vault").

Definition candidates (cwd : Directory) : list string :=
  filter isCandidate (map name (filter (fun e => negb (isDirectory e)) cwd)).

Definition validNames (cwd : Directory) : Prop :=
  Forall (fun e => noSlash (name e) = true) cwd.

(** ** Errors, console output and the process state *)

(** A JavaScript error object, as far as the handlers inspect it. *)
Record JsError := { errName : string; errMessage : string; isTtyError : bool }.

(** [new Error(message)]. *)
Definition Error (message : string) : JsError :=
  {| errName := "Error"; errMessage := message; isTtyError := false |}.

(** The rejection of an [inquirer] prompt that the operator interrupts. *)
Definition ExitPromptError : JsError :=
  {| errName := "ExitPromptError";
     errMessage := "User force closed the prompt with SIGINT";
     isTtyError := false |}.

(** How the console renders an error after a label. *)
Definition showError (e : JsError) : string := errName e ++ ": " ++ errMessage e.

(** [chalk] only colours its argument. *)
Module chalk.
Definition red (s : string) : string := s.
Definition yellow (s : string) : string := s.
Definition green (s : string) : string := s.
Definition blue (s : string) : string := s.
Definition bold (s : string) : string := s.
Definition dim (s : string) : string := s.
End chalk.

(** What the program hands to a process-spawning primitive. *)
Inductive Invocation :=
| SpawnSync (cmd : string) (args : list string)
| ZxCall (pieces : list string)
| Spawn (cmd : string) (args : list string) (shell : bool)
| BunCall (commandLine : string).

(** The observable trace of a run: lines and chunks written to the two
    output streams, the prompts shown, the subprocesses started. *)
Record Proc := mkProc {
  stdoutLog : list string;
  stderrLog : list string;
  prompts : list string;
  spawned : list Invocation
}.

Definition startProc : Proc := mkProc [] [] [] [].

(** How an asynchronous computation ends: with a value, with a thrown error
    (a rejected promise), with [process.exit(code)], or never. *)
Inductive Res (A : Type) :=
| Ret (a : A)
| Throw (e : JsError)
| Exit (code : Z)
| Pending.

Arguments Ret {A} a.
Arguments Throw {A} e.
Arguments Exit {A} code.
Arguments Pending {A}.

Definition M (A : Type) : Type := Proc -> Res A * Proc.

Definition ret {A} (a : A) : M A := fun p => (Ret a, p).

Definition bind {A B} (m : M A) (k : A -> M B) : M B :=
  fun p =>
    match m p with
    | (Ret a, p') => k a p'
    | (Throw e, p') => (Throw e, p')
    | (Exit c, p') => (Exit c, p')
    | (Pending, p') => (Pending, p')
    end.

Notation "x <- m ;; k" := (bind m (fun x => k))
  (at level 61, m at next level, right associativity).
Notation "m ;; k" := (bind m (fun _ => k))
  (at level 61, right associativity).

Definition throw {A} (e : JsError) : M A := fun p => (Throw e, p).

(** [process.exit(code)]. *)
Definition processExit {A} (code : Z) : M A := fun p => (Exit code, p).

(** [try { body } catch (error) { handler }]: only a thrown error reaches
    the handler; [process.exit] and a promise that never settles do not. *)
Definition tryCatch {A} (body : M A) (handler : JsError -> M A) : M A :=
  fun p =>
    match body p with
    | (Throw e, p') => handler e p'
    | r => r
    end.

Definition consoleLog (line : string) : M unit :=
  fun p => (Ret tt, mkProc (stdoutLog p ++ [line]) (stderrLog p) (prompts p) (spawned p)).

Definition consoleError (line : string) : M unit :=
  fun p => (Ret tt, mkProc (stdoutLog p) (stderrLog p ++ [line]) (prompts p) (spawned p)).

(** [process.stdout.write(data)] and [process.stderr.write(data)]. *)
Definition writeStdout (data : string) (p : Proc) : Proc :=
  mkProc (stdoutLog p ++ [data]) (stderrLog p) (prompts p) (spawned p).

Definition writeStderr (data : string) (p : Proc) : Proc :=
  mkProc (stdoutLog p) (stderrLog p ++ [data]) (prompts p) (spawned p).

Definition showPrompt (message : string) (p : Proc) : Proc :=
  mkProc (stdoutLog p) (stderrLog p) (prompts p ++ [message]) (spawned p).

Definition start (i : Invocation) (p : Proc) : Proc :=
  mkProc (stdoutLog p) (stderrLog p) (prompts p) (spawned p ++ [i]).

(** ** The environment of a run *)

(** What a child process does once started. *)
Inductive ChildEvent :=
| StdoutData (data : string)
| StderrData (data : string)
| Close (code : option Z).

(** The operator at a checkbox prompt: each confirmation carries the marks
    of the selectable rows, top to bottom. *)
Inductive Attempt :=
| Confirm (marks : list bool)
| Abort (e : JsError).

(** The operator at a list prompt. *)
Inductive Reply :=
| Answer (value : string)
| Rejected (e : JsError)
| NoReply.

Record World := {
  argv : list string;
  platform : string;
  (** exit status of the lookup of [dotenvx] on the search path; [None]
      when there is none or the lookup itself throws *)
  whichStatus : option Z;
  cwd : Directory;
  menuOperator : Reply;
  checkboxOperator : list Attempt;
  child : Invocation -> list ChildEvent;
  (** what [console.timeEnd(label)] reports *)
  elapsed : string -> string
}.

(** [console.timeEnd(label)]. *)
Definition consoleTimeEnd (w : World) (label : string) : M unit :=
  consoleLog (label ++ ": " ++ elapsed w label).

(** ** The [inquirer] prompts *)

Inductive Choice :=
| Item (label value short : string)
| Separator.

Inductive Validation := Valid | Invalid (message : string).

Record Checkbox := {
  message : string;
  choices : list Choice;
  validate : list string -> Validation
}.

(** The values of the rows that can be marked. *)
Fixpoint selectable (cs : list Choice) : list string :=
  match cs with
  | [] => []
  | Item _ v _ :: cs' => v :: selectable cs'
  | Separator :: cs' => selectable cs'
  end.

(** The answer of a confirmation: the values of the marked rows. *)
Fixpoint checked (values : list string) (marks : list bool) : list string :=
  match values, marks with
  | v :: vs, m :: ms => (if m then [v] else []) ++ checked vs ms
  | _, _ => []
  end.

(** A checkbox prompt keeps asking until a confirmation passes [validate]
    or the operator aborts. *)
Fixpoint checkboxLoop (q : Checkbox) (script : list Attempt)
  : Res (list string) :=
  match script with
  | [] => Pending
  | Abort e :: _ => Throw e
  | Confirm marks :: script' =>
      let answer := checked (selectable (choices q)) marks in
      match validate q answer with
      | Valid => Ret answer
      | Invalid _ => checkboxLoop q script'
      end
  end.

(** [inquirer.prompt({ type: "checkbox", ... })]. *)
Definition promptCheckbox (w : World) (q : Checkbox) : M (list string) :=
  fun p => (checkboxLoop q (checkboxOperator w), showPrompt (message q) p).

(** [inquirer.prompt([{ type: "list", ... }])], the chosen value. *)
Definition promptList (w : World) (msg : string) (cs : list Choice) : M string :=
  fun p =>
    (match menuOperator w with
     | Answer v => Ret v
     | Rejected e => Throw e
     | NoReply => Pending
     end,
     showPrompt msg p).

(** ** File selection *)

(** The question [selectFiles] puts to [inquirer.prompt]. *)
Definition selectQuestion (files : list string) (action : string) : Checkbox :=
  {| message := "Select .env files to " ++ action ++ ":" ++ newline;
     choices :=
       Item ("All files " ++ chalk.dim "← Select all .env files") "ALL" "All files"
       :: Separator
       :: map (fun file =>
                 Item (file ++ " " ++ chalk.dim "← Press Space to select") file file)
              files;
     validate := fun answer =>
       if (List.length answer =? 0)%nat
       then Invalid "Please select at least one file to proceed"
       else Valid |}.

(** [selectFiles] (src/index.ts 78-126, part_001 86-134, part_000 32-76;
    the last words the prompt message differently). *)
Definition selectFiles (w : World) (files : list string) (action : string)
  : M (list string) :=
  if (List.length files =? 0)%nat then
    consoleLog (chalk.yellow "No .env files found in the current directory.") ;;
    ret []
  else
    selectedFiles <- promptCheckbox w (selectQuestion files action) ;;
    (* If "ALL" is selected, return all files *)
    if includes selectedFiles "ALL" then ret files else ret selectedFiles.

(** ** Running a program to its exit status *)

Record ExecResult := { stdout : string; stderr : string; exitCode : Z }.

Record Outcome := { exitStatus : option Z; trace : Proc }.

(** The process around [main().catch(handler)]: the exit status is the
    argument of [process.exit], or 0 once a settled program leaves nothing
    to wait for; an error nobody caught goes to the [uncaughtException]
    listener, after which the process goes on (and ends, with status 0)
    unless the listener exits or throws itself (status 7); a promise that
    never settles keeps the process waiting. *)
Definition runProcess (uncaughtException : JsError -> M unit) (program : M unit)
  : Outcome :=
  match program startProc with
  | (Ret _, p) => {| exitStatus := Some 0%Z; trace := p |}
  | (Exit c, p) => {| exitStatus := Some c; trace := p |}
  | (Pending, p) => {| exitStatus := None; trace := p |}
  | (Throw e, p) =>
      match uncaughtException e p with
      | (Ret _, p') => {| exitStatus := Some 0%Z; trace := p' |}
      | (Exit c, p') => {| exitStatus := Some c; trace := p' |}
      | (Throw _, p') => {| exitStatus := Some 7%Z; trace := p' |}
      | (Pending, p') => {| exitStatus := None; trace := p' |}
      end
  end.

(** Whether the working directory has an entry of that name. *)
Definition hasEntry (w : World) (path : string) : bool :=
  existsb (fun e => String.eqb (name e) path) (cwd w).

(** Whether the lookup of [dotenvx] ended with status 0. *)
Definition onSearchPath (w : World) : bool :=
  match whichStatus w with Some status => Z.eqb status 0%Z | None => false end.

(** The lookup command of the platform. *)
Definition lookup (w : World) : Invocation :=
  SpawnSync (if String.eqb (platform w) "win32" then "where" else "which")
            ["dotenvx"].

(** [fs.access(path)] in the working directory. *)
Definition fsAccess (w : World) (path : string) : M unit :=
  if hasEntry w path
  then ret tt
  else throw (Error ("ENOENT: no such file or directory, access '" ++ path ++ "'")).

(** [checkEnvKeysFile] (src/index.ts 47-54, part_001 57-64). *)
Definition checkEnvKeysFile (w : World) : M bool :=
  tryCatch (fsAccess w ".env.keys" ;; ret true) (fun _ => ret false).

(** [checkDotenvxInstallation] (src/index.ts 33-41, part_001 43-51); a
    lookup that throws and a lookup without status both count as absent. *)
Definition checkDotenvxInstallation (w : World) : M bool :=
  let cmd := if String.eqb (platform w) "win32" then "where" else "which" in
  fun p => (Ret (onSearchPath w), start (SpawnSync cmd ["dotenvx"]) p).

Definition helpText : string :=
  newline ++ chalk.bold "dotenvx-interactive-cli" ++ newline
  ++ "Usage: dotenvx-interactive [options]" ++ newline ++ newline
  ++ "Options:" ++ newline
  ++ "  --help, -h     Show this help message" ++ newline.

Definition menuChoices : list Choice :=
  [ Item "Encrypt .env files" "encrypt" "Encrypt .env files";
    Item "Decrypt .env files" "decrypt" "Decrypt .env files";
    Item "Install precommit hook" "precommit" "Install precommit hook";
    Item "Exit" "exit" "Exit" ].

Definition installHint : string :=
  "Please install it using: npm install -g @dotenvx/dotenvx".

Definition keyFileHint : string :=
  "No .env.keys file found. Please create one to proceed.".

(** ** src/index.ts: the [zx] generation *)

Module Zx.

(** What an awaited [zx] command resolves to. *)
Record ProcessOutput := {
  poStdout : option string;
  poStderr : option string;
  poExitCode : option Z
}.

(** The output a child produces until it closes. *)
Fixpoint collect (events : list ChildEvent) (out err : string)
  : option (string * string * option Z) :=
  match events with
  | [] => None
  | StdoutData d :: events' => collect events' (out ++ d) err
  | StderrData d :: events' => collect events' out (err ++ d)
  | Close code :: _ => Some (out, err, code)
  end.

(** [$(pieces).nothrow()]: settles when the child closes, whatever its
    exit code.  [zx] echoes the child's output only when verbose, which
    is left out. *)
Definition dollarNothrow (w : World) (pieces : list string) : M ProcessOutput :=
  fun p =>
    (match collect (child w (ZxCall pieces)) EmptyString EmptyString with
     | Some (out, err, code) =>
         Ret {| poStdout := Some out; poStderr := Some err; poExitCode := code |}
     | None => Pending
     end,
     start (ZxCall pieces) p).

(** [executeCommand] (src/index.ts 15-26). *)
Definition executeCommand (w : World) (cmd : string) (args : list string)
  : M ExecResult :=
  (* Pass each arg separately so zx quotes them correctly *)
  result <- dollarNothrow w (cmd :: args) ;;
  ret {| stdout := poStdout result ?? EmptyString;
         stderr := poStderr result ?? EmptyString;
         exitCode := (poExitCode result ?? 0)%Z |}.

(** [main] (src/index.ts 132-254). *)
Definition main (w : World) : M unit :=
  consoleLog (chalk.bold "dotenvx-interactive-cli") ;;
  (* Help flag support *)
  (if includes (argv w) "--help" || includes (argv w) "-h" then
     consoleLog helpText ;;
     consoleTimeEnd w "Help Flag Check" ;;
     processExit 0%Z
   else ret tt) ;;
  consoleTimeEnd w "Help Flag Check" ;;
  (* Run both checks in parallel *)
  isDotenvxInstalled <- checkDotenvxInstallation w ;;
  isEnvKeysFilePresent <- checkEnvKeysFile w ;;
  consoleTimeEnd w "Startup Checks" ;;
  (if negb isDotenvxInstalled then
     consoleLog (chalk.red "❌ dotenvx is not installed on your system.") ;;
     consoleLog (chalk.yellow installHint) ;;
     throw (Error "dotenvx not installed")
   else ret tt) ;;
  (if negb isEnvKeysFilePresent then
     consoleLog (chalk.yellow keyFileHint) ;;
     throw (Error ".env.keys file not found")
   else ret tt) ;;
  consoleLog (chalk.green "👌 dotenvx is installed") ;;
  consoleTimeEnd w "Total Initialization Time" ;;
  consoleLog EmptyString ;;
  action <- promptList w "What would you like to do?" menuChoices ;;
  consoleLog EmptyString ;;
  if String.eqb action "encrypt" then
    tryCatch
      (let files := findEnvFiles (cwd w) in
       selectedFiles <- selectFiles w files "encrypt" ;;
       if (0 <? List.length selectedFiles)%nat then
         executeCommand w "dotenvx" ("encrypt" :: "-f" :: selectedFiles) ;;
         consoleLog (chalk.green "✓ Files encrypted successfully")
       else
         consoleLog (chalk.yellow "No files selected for encryption"))
      (fun error =>
         consoleError (chalk.red "Error encrypting files:" ++ " " ++ showError error) ;;
         throw error)
  else if String.eqb action "decrypt" then
    tryCatch
      (let files := findEnvFiles (cwd w) in
       selectedFiles <- selectFiles w files "decrypt" ;;
       if (0 <? List.length selectedFiles)%nat then
         executeCommand w "dotenvx" ("decrypt" :: "-f" :: selectedFiles) ;;
         consoleLog (chalk.green "✓ Files decrypted successfully")
       else
         consoleLog (chalk.yellow "No files selected for decryption"))
      (fun error =>
         consoleError (chalk.red "Error decrypting files:" ++ " " ++ showError error) ;;
         throw error)
  else if String.eqb action "precommit" then
    tryCatch
      (executeCommand w "dotenvx" ["ext"; "precommit"; "--install"] ;;
       consoleLog (chalk.green "👍 Precommit hook installed successfully"))
      (fun error =>
         consoleError
           (chalk.red "Error installing precommit hook:" ++ " " ++ showError error) ;;
         throw error)
  else if String.eqb action "exit" then
    throw (Error "User exited")
  else ret tt.

(** [process.on("uncaughtException", ...)] (src/index.ts 256-263). *)
Definition uncaughtException (error : JsError) : M unit :=
  if String.eqb (errName error) "ExitPromptError" then
    consoleLog "👋 until next time!"
  else
    (* Rethrow unknown errors *)
    throw error.

(** [main().catch(...)] (src/index.ts 265-268). *)
Definition program (w : World) : M unit :=
  tryCatch (main w)
    (fun err =>
       consoleError (chalk.red "❌ An error occurred:" ++ " " ++ showError err) ;;
       processExit 1%Z).

Definition run (w : World) : Outcome := runProcess uncaughtException (program w).

(** The trace of a run that gets to the menu, as the menu has been shown. *)
Definition atMenu (w : World) : Proc :=
  mkProc
    [ "dotenvx-interactive-cli";
      "Help Flag Check: " ++ elapsed w "Help Flag Check";
      "Startup Checks: " ++ elapsed w "Startup Checks";
      "👌 dotenvx is installed";
      "Total Initialization Time: " ++ elapsed w "Total Initialization Time";
      EmptyString ]
    []
    [ "What would you like to do?" ]
    [ lookup w ].

End Zx.

(** ** unnamed/part_001: the [child_process.spawn] generation *)

Module NodeSpawn.

(** The argument vector the operating system receives from
    [child_process.spawn(cmd, args, { shell })]: with a shell, Node joins
    the command and its arguments with single spaces, unquoted, into one
    command line for [/bin/sh -c]. *)
Definition spawnArgv (cmd : string) (args : list string) (shell : bool)
  : list string :=
  if shell then ["/bin/sh"; "-c"; join " " (cmd :: args)] else cmd :: args.

(** The variables the listeners of [executeCommand] close over, and the
    promise they settle. *)
Record Listening := {
  stdoutBuf : string;
  stderrBuf : string;
  settled : option ExecResult
}.

(** [child.stdout?.on("data", ...)]. *)
Definition onStdoutData (data : string) (s : Listening * Proc) : Listening * Proc :=
  let (l, p) := s in
  ({| stdoutBuf := stdoutBuf l ++ data; stderrBuf := stderrBuf l;
      settled := settled l |},
   writeStdout data p).

(** [child.stderr?.on("data", ...)]. *)
Definition onStderrData (data : string) (s : Listening * Proc) : Listening * Proc :=
  let (l, p) := s in
  ({| stdoutBuf := stdoutBuf l; stderrBuf := stderrBuf l ++ data;
      settled := settled l |},
   writeStderr data p).

(** [child.on("close", ...)]; a promise settles once, later calls of
    [resolve] change nothing. *)
Definition onClose (code : option Z) (s : Listening * Proc) : Listening * Proc :=
  let (l, p) := s in
  ({| stdoutBuf := stdoutBuf l; stderrBuf := stderrBuf l;
      settled :=
        match settled l with
        | Some r => Some r
        | None =>
            Some {| stdout := stdoutBuf l; stderr := stderrBuf l;
                    exitCode := (code ?? 0)%Z |}
        end |},
   p).

Definition dispatch (s : Listening * Proc) (ev : ChildEvent) : Listening * Proc :=
  match ev with
  | StdoutData d => onStdoutData d s
  | StderrData d => onStderrData d s
  | Close code => onClose code s
  end.

Definition listening : Listening :=
  {| stdoutBuf := EmptyString; stderrBuf := EmptyString; settled := None |}.

(** The listeners run over what the child does. *)
Definition listen (events : list ChildEvent) (p : Proc) : Listening * Proc :=
  fold_left dispatch events (listening, p).

(** [executeCommand] (part_001 13-37). *)
Definition executeCommand (w : World) (cmd : string) (args : list string)
  : M ExecResult :=
  fun p =>
    let spawn := Spawn cmd args true in
    let (l, p') := listen (child w spawn) (start spawn p) in
    match settled l with
    | Some r => (Ret r, p')
    | None => (Pending, p')
    end.

(** [main] (part_001 140-272). *)
Definition main (w : World) : M unit :=
  consoleLog (chalk.bold "dotenvx-interactive-cli") ;;
  (* Help flag support *)
  (if includes (argv w) "--help" || includes (argv w) "-h" then
     consoleLog helpText ;;
     processExit 0%Z
   else ret tt) ;;
  (* Run both checks in parallel *)
  isDotenvxInstalled <- checkDotenvxInstallation w ;;
  isEnvKeysFilePresent <- checkEnvKeysFile w ;;
  (if negb isDotenvxInstalled then
     consoleLog (chalk.red "❌ dotenvx is not installed on your system.") ;;
     consoleLog (chalk.yellow installHint) ;;
     throw (Error "dotenvx not installed")
   else ret tt) ;;
  (if negb isEnvKeysFilePresent then
     consoleLog (chalk.yellow keyFileHint) ;;
     throw (Error ".env.keys file not found")
   else ret tt) ;;
  consoleLog (chalk.green "👌 dotenvx is installed") ;;
  consoleLog EmptyString ;;
  action <- promptList w "What would you like to do?" menuChoices ;;
  consoleLog EmptyString ;;
  if String.eqb action "encrypt" then
    tryCatch
      (let files := findEnvFiles (cwd w) in
       selectedFiles <- selectFiles w files "encrypt" ;;
       if (0 <? List.length selectedFiles)%nat then
         executeCommand w "dotenvx" ("encrypt" :: "-f" :: selectedFiles) ;;
         consoleLog (chalk.green "✓ Files encrypted successfully")
       else
         consoleLog (chalk.yellow "No files selected for encryption"))
      (fun error =>
         consoleError (chalk.red "Error encrypting files:" ++ " " ++ showError error) ;;
         throw error)
  else if String.eqb action "decrypt" then
    tryCatch
      (let files := findEnvFiles (cwd w) in
       selectedFiles <- selectFiles w files "decrypt" ;;
       if (0 <? List.length selectedFiles)%nat then
         execResult <-
           executeCommand w "dotenvx" ("decrypt" :: "-f" :: selectedFiles) ;;
         if Z.eqb (exitCode execResult) 0 then
           consoleLog (chalk.green "✓ Files decrypted successfully")
         else
           consoleError
             (chalk.red "❌ Failed to decrypt files:" ++ " " ++ stderr execResult)
       else
         consoleLog (chalk.yellow "No files selected for decryption"))
      (fun error =>
         consoleError (chalk.red "Error decrypting files:" ++ " " ++ showError error) ;;
         throw error)
  else if String.eqb action "precommit" then
    tryCatch
      (executeCommand w "dotenvx" ["ext"; "precommit"; "--install"] ;;
       consoleLog (chalk.green "👍 Precommit hook installed successfully"))
      (fun error =>
         consoleError
           (chalk.red "Error installing precommit hook:" ++ " " ++ showError error) ;;
         throw error)
  else if String.eqb action "exit" then
    throw (Error "User exited")
  else ret tt.

(** The test both handlers of part_001 make on an error. *)
Definition promptExited (error : JsError) : bool :=
  String.eqb (errName error) "ExitPromptError" || isTtyError error.

(** [process.on("uncaughtException", ...)] (part_001 279-290). *)
Definition uncaughtException (error : JsError) : M unit :=
  if promptExited error then
    consoleLog "👋 Prompt exited. Until next time!" ;;
    processExit 0%Z
  else
    consoleError (chalk.red "Unexpected error:" ++ " " ++ showError error) ;;
    processExit 1%Z.

(** [main().catch(...)] (part_001 292-302). *)
Definition program (w : World) : M unit :=
  tryCatch (main w)
    (fun err =>
       (if promptExited err then
          consoleLog "👋 Prompt exited. Until next time!" ;;
          processExit 0%Z
        else ret tt) ;;
       consoleError (chalk.red "❌ An error occurred:" ++ " " ++ showError err) ;;
       processExit 1%Z).

Definition run (w : World) : Outcome := runProcess uncaughtException (program w).

(** The trace of a run that gets to the menu, as the menu has been shown. *)
Definition atMenu (w : World) : Proc :=
  mkProc
    [ "dotenvx-interactive-cli"; "👌 dotenvx is installed"; EmptyString ]
    []
    [ "What would you like to do?" ]
    [ lookup w ].

End NodeSpawn.

(** ** unnamed/part_000, first document: the Bun shell generation *)

Module BunShell.

(** The error a Bun shell command rejects with on a non-zero exit. *)
Definition ShellError (code : Z) : JsError :=
  {| errName := "ShellError";
     errMessage := "Failed with exit code";
     isTtyError := false |}.

(** A Bun shell command, awaited: the command line goes to Bun's shell,
    the child's output is echoed while it is captured, and a non-zero exit
    rejects. *)
Fixpoint echo (events : list ChildEvent) (p : Proc) : option (option Z) * Proc :=
  match events with
  | [] => (None, p)
  | StdoutData d :: events' => echo events' (writeStdout d p)
  | StderrData d :: events' => echo events' (writeStderr d p)
  | Close code :: _ => (Some code, p)
  end.

Definition dollar (w : World) (commandLine : string) : M Z :=
  fun p =>
    match echo (child w (BunCall commandLine)) (start (BunCall commandLine) p) with
    | (None, p') => (Pending, p')
    | (Some code, p') =>
        if Z.eqb (code ?? 0)%Z 0 then (Ret 0%Z, p')
        else (Throw (ShellError (code ?? 0)%Z), p')
    end.

(** [checkDotenvxInstallation] (part_000 7-15). *)
Definition checkDotenvxInstallation (w : World) : M bool :=
  tryCatch
    (dollar w ("echo " ++ quote ++ "dotenvx version" ++ quote) ;;
     exitCode <- dollar w "dotenvx --version" ;;
     ret (Z.eqb exitCode 0))
    (fun _ => ret false).

(** [checkEnvKeysFile] (part_000 17-20). *)
Definition checkEnvKeysFile (w : World) : M bool :=
  let files := glob ".env.keys" {| ignore := []; nodir := true |} (cwd w) in
  ret (0 <? List.length files)%nat.

(** The text spliced raw into the command line (part_000 125, 143). *)
Definition fileArgs (selectedFiles : list string) : string :=
  "-f " ++ join " " selectedFiles.

(** [main] (part_000 78-171). *)
Definition main (w : World) : M unit :=
  isDotenvxInstalled <- checkDotenvxInstallation w ;;
  (if negb isDotenvxInstalled then
     consoleLog (chalk.red "❌ dotenvx is not installed on your system.") ;;
     consoleLog (chalk.yellow installHint) ;;
     processExit 1%Z
   else ret tt) ;;
  isEnvKeysFilePresent <- checkEnvKeysFile w ;;
  (if negb isEnvKeysFilePresent then
     consoleLog (chalk.yellow keyFileHint) ;;
     processExit 1%Z
   else ret tt) ;;
  consoleLog (chalk.green "✓ dotenvx is installed") ;;
  action <- promptList w "What would you like to do?" menuChoices ;;
  if String.eqb action "encrypt" then
    tryCatch
      (let files := findEnvFiles (cwd w) in
       selectedFiles <- selectFiles w files "encrypt" ;;
       if (0 <? List.length selectedFiles)%nat then
         dollar w ("dotenvx encrypt " ++ fileArgs selectedFiles) ;;
         consoleLog (chalk.green "✓ Files encrypted successfully")
       else
         consoleLog (chalk.yellow "No files selected for encryption"))
      (fun error =>
         consoleError (chalk.red "Error encrypting files:" ++ " " ++ showError error))
  else if String.eqb action "decrypt" then
    tryCatch
      (let files := findEnvFiles (cwd w) in
       selectedFiles <- selectFiles w files "decrypt" ;;
       if (0 <? List.length selectedFiles)%nat then
         dollar w ("dotenvx decrypt " ++ fileArgs selectedFiles) ;;
         consoleLog (chalk.green "✓ Files decrypted successfully")
       else
         consoleLog (chalk.yellow "No files selected for decryption"))
      (fun error =>
         consoleError (chalk.red "Error decrypting files:" ++ " " ++ showError error))
  else if String.eqb action "precommit" then
    tryCatch
      (dollar w "dotenvx ext precommit --install" ;;
       consoleLog (chalk.green "✓ Precommit hook installed successfully"))
      (fun error =>
         consoleError
           (chalk.red "Error installing precommit hook:" ++ " " ++ showError error))
  else if String.eqb action "exit" then
    processExit 0%Z
  else ret tt.

(** [main().catch(console.error)] (part_000 173). *)
Definition program (w : World) : M unit :=
  tryCatch (main w) (fun err => consoleError (showError err)).

(** No [uncaughtException] listener is installed: Node reports the error
    and exits with status 1. *)
Definition uncaughtException (error : JsError) : M unit :=
  consoleError (showError error) ;; processExit 1%Z.

Definition run (w : World) : Outcome := runProcess uncaughtException (program w).

End BunShell.

(** ** What a child trace shows *)

(** The text a child wrote to its standard output. *)
Fixpoint stdoutOf (events : list ChildEvent) : string :=
  match events with
  | [] => EmptyString
  | StdoutData d :: events' => d ++ stdoutOf events'
  | _ :: events' => stdoutOf events'
  end.

(** The text a child wrote to its standard error. *)
Fixpoint stderrOf (events : list ChildEvent) : string :=
  match events with
  | [] => EmptyString
  | StderrData d :: events' => d ++ stderrOf events'
  | _ :: events' => stderrOf events'
  end.

(** Whether the child terminates within the trace. *)
Fixpoint closes (events : list ChildEvent) : bool :=
  match events with
  | [] => false
  | Close _ :: _ => true
  | _ :: events' => closes events'
  end.

(** The contract of a subprocess runner [exec] that hands [invocation cmd
    args] to its runtime: it settles when the child closes, and only then,
    with the output up to there and the child's exit status (0 when there is
    none); it never throws and never ends the process. *)
Definition RunnerContract
           (exec : World -> string -> list string -> M ExecResult)
           (invocation : string -> list string -> Invocation) : Prop :=
  forall (w : World) (cmd : string) (args : list string) (p : Proc),
    (forall before code after,
        child w (invocation cmd args) = (before ++ Close code :: after)%list ->
        closes before = false ->
        fst (exec w cmd args p)
        = Ret {| stdout := stdoutOf before; stderr := stderrOf before;
                 exitCode := (code ?? 0)%Z |})
    /\ (closes (child w (invocation cmd args)) = false ->
        fst (exec w cmd args p) = Pending)
    /\ (forall e, fst (exec w cmd args p) <> Throw e)
    /\ (forall c, fst (exec w cmd args p) <> Exit c)
    /\ spawned (snd (exec w cmd args p))
       = (spawned p ++ [invocation cmd args])%list.

(** ** Sample directories and runs *)

Definition sampleDir : Directory :=
  [ regularFile ".env"; regularFile "README.md"; regularFile ".env.keys";
    directory ".env.d"; regularFile ".env.vault"; regularFile ".env.local";
    regularFile ".env.keys.json"; regularFile ".env.backup.keys";
    regularFile ".environment" ].

Definition strayKeys : Directory := [ regularFile ".env.backup.keys" ].

(** A run on Linux without flags. *)
Definition world (entries : Directory) (which : option Z) (menu : Reply)
           (checkbox : list Attempt) (events : list ChildEvent) : World :=
  {| argv := ["node"; "dist/index.js"];
     platform := "linux";
     whichStatus := which;
     cwd := entries;
     menuOperator := menu;
     checkboxOperator := checkbox;
     child := fun _ => events;
     elapsed := fun _ => "0.05ms" |}.

(** A working directory ready for use: two environment files and the key
    file. *)
Definition prepared : Directory :=
  [ regularFile ".env"; regularFile ".env.local"; regularFile ".env.keys" ].

(** The operator picks an action and marks the select-all row; the child
    writes [boom] to its standard error and exits with status 2. *)
Definition childFails (action : string) : World :=
  world prepared (Some 0%Z) (Answer action) [Confirm [true]]
        [StderrData "boom"; Close (Some 2%Z)].

(** The operator picks Exit from the menu. *)
Definition operatorExits : World :=
  world prepared (Some 0%Z) (Answer "exit") [] [Close (Some 0%Z)].

(** The operator picks Encrypt and interrupts the file selection. *)
Definition operatorCancels : World :=
  world prepared (Some 0%Z) (Answer "encrypt") [Abort ExitPromptError]
        [Close (Some 0%Z)].

(** Neither [dotenvx] on the search path nor a key file. *)
Definition nothingInstalled : World :=
  world [regularFile ".env"] (Some 1%Z) (Answer "encrypt") [Confirm [true]]
        [Close (Some 0%Z)].

(** [dotenvx] on the search path, no key file. *)
Definition keyFileMissing : World :=
  world [regularFile ".env"] (Some 0%Z) (Answer "encrypt") [Confirm [true]]
        [Close (Some 0%Z)].

(** An environment file with a space in its name, marked alone. *)
Definition spacedName : World :=
  world [regularFile ".env local"; regularFile ".env.keys"] (Some 0%Z)
        (Answer "encrypt") [Confirm [false; true]] [Close (Some 0%Z)].

(** ** Further observations on runs *)

(** The chunks a child wrote to its standard output, one by one. *)
Fixpoint stdoutChunks (events : list ChildEvent) : list string :=
  match events with
  | [] => []
  | StdoutData d :: events' => d :: stdoutChunks events'
  | _ :: events' => stdoutChunks events'
  end.

(** The chunks a child wrote to its standard error, one by one. *)
Fixpoint stderrChunks (events : list ChildEvent) : list string :=
  match events with
  | [] => []
  | StderrData d :: events' => d :: stderrChunks events'
  | _ :: events' => stderrChunks events'
  end.

(** What a child does before it closes. *)
Fixpoint untilClose (events : list ChildEvent) : list ChildEvent :=
  match events with
  | [] => []
  | Close _ :: _ => []
  | ev :: events' => ev :: untilClose events'
  end.

(** The status a child closes with, if it closes. *)
Fixpoint closeCode (events : list ChildEvent) : option (option Z) :=
  match events with
  | [] => None
  | Close code :: _ => Some code
  | _ :: events' => closeCode events'
  end.

(** A directory with the key file and nothing to encrypt. *)
Definition keyFileOnly : Directory :=
  [ regularFile ".env.keys"; regularFile "README.md"; directory ".env.d" ].

(** What [selectFiles] makes of a confirmed selection. *)
Definition chosen (files selectedFiles : list string) : list string :=
  if includes selectedFiles "ALL" then files else selectedFiles.

(** ** src/index.ts, second document: the menu-only Bun program *)

Module BunMenu.

(** [checkDotenvxInstallation] (src/index.ts 273-280). *)
Definition checkDotenvxInstallation (w : World) : M bool :=
  tryCatch
    (exitCode <- BunShell.dollar w "dotenvx --version" ;;
     ret (Z.eqb exitCode 0))
    (fun _ => ret false).

(** [main] (src/index.ts 282-335). *)
Definition main (w : World) : M unit :=
  isDotenvxInstalled <- checkDotenvxInstallation w ;;
  (if negb isDotenvxInstalled then
     consoleLog (chalk.red "❌ dotenvx is not installed on your system.") ;;
     consoleLog (chalk.yellow installHint) ;;
     processExit 1%Z
   else ret tt) ;;
  consoleLog (chalk.green "✓ dotenvx is installed") ;;
  action <- promptList w "What would you like to do?" menuChoices ;;
  if String.eqb action "encrypt" then
    tryCatch
      (BunShell.dollar w "dotenvx encrypt" ;;
       consoleLog (chalk.green "✓ Files encrypted successfully"))
      (fun error =>
         consoleError (chalk.red "Error encrypting files:" ++ " " ++ showError error))
  else if String.eqb action "decrypt" then
    tryCatch
      (BunShell.dollar w "dotenvx decrypt" ;;
       consoleLog (chalk.green "✓ Files decrypted successfully"))
      (fun error =>
         consoleError (chalk.red "Error decrypting files:" ++ " " ++ showError error))
  else if String.eqb action "precommit" then
    tryCatch
      (BunShell.dollar w "dotenvx ext precommit --install" ;;
       consoleLog (chalk.green "✓ Precommit hook installed successfully"))
      (fun error =>
         consoleError
           (chalk.red "Error installing precommit hook:" ++ " " ++ showError error))
  else if String.eqb action "exit" then
    processExit 0%Z
  else ret tt.

(** [main().catch(console.error)] (src/index.ts 337). *)
Definition program (w : World) : M unit :=
  tryCatch (main w) (fun err => consoleError (showError err)).

Definition run (w : World) : Outcome :=
  runProcess BunShell.uncaughtException (program w).

End BunMenu.

(** The command lines the menu-only program can hand to the Bun shell. *)
Definition fixedCommands : list Invocation :=
  [ BunCall "dotenvx --version";
    BunCall "dotenvx encrypt";
    BunCall "dotenvx decrypt";
    BunCall "dotenvx ext precommit --install" ].


(** The command lines the Bun shell generation can hand to the shell in a
    working directory. *)
Definition bunCommand (cwd : Directory) (i : Invocation) : Prop :=
  i = BunCall ("echo " ++ quote ++ "dotenvx version" ++ quote)
  \/ i = BunCall "dotenvx --version"
  \/ i = BunCall "dotenvx ext precommit --install"
  \/ exists selected,
       selected <> []
       /\ incl selected (findEnvFiles cwd)
       /\ (i = BunCall ("dotenvx encrypt " ++ BunShell.fileArgs selected)
           \/ i = BunCall ("dotenvx decrypt " ++ BunShell.fileArgs selected)).

(** The first command of the Bun shell generation's probe. *)
Definition echoProbe : Invocation :=
  BunCall ("echo " ++ quote ++ "dotenvx version" ++ quote).

(** The second one. *)
Definition versionProbe : Invocation := BunCall "dotenvx --version".

(** A child that closes with status 0, or with none. *)
Definition closesWell (events : list ChildEvent) : bool :=
  match closeCode events with
  | Some code => Z.eqb (code ?? 0)%Z 0
  | None => false
  end.

(** A run in which only [echo] fails. *)
Definition echoFails : World :=
  {| argv := ["bun"; "index.ts"];
     platform := "linux";
     whichStatus := None;
     cwd := prepared;
     menuOperator := Answer "encrypt";
     checkboxOperator := [Confirm [true]];
     child := fun i =>
       match i with
       | BunCall "dotenvx --version" => [StdoutData "1.0.0"; Close (Some 0%Z)]
       | _ => [Close (Some 127%Z)]
       end;
     elapsed := fun _ => "0ms" |}.

(** ** unnamed/part_000, second document: the [@effect/cli] generation *)

(** Decimal digits of a number, as a template literal prints it. *)
Fixpoint decimal (fuel n : nat) : string :=
  match fuel with
  | O => EmptyString
  | S fuel' =>
      let digit := String (ascii_of_nat (48 + n mod 10)) EmptyString in
      if (n <? 10)%nat then digit else decimal fuel' (n / 10) ++ digit
  end.

Definition numberToString (n : nat) : string := decimal (S n) n.

(** The glob and filter of [findEnvFiles], run in the working directory of
    a world. *)
Definition discovered (w : World) : list string := findEnvFiles (cwd w).

Module EffectCli.

(** What a spawned child emits: its output and close, or ['error']. *)
Inductive Signal :=
| Emitted (ev : ChildEvent)
| Errored (error : JsError).

(** The command line as [@effect/cli] parsed it; its built-in options
    ([--help], [--version], [--wizard], [--completions]) and the command
    lines it refuses never reach a handler and are left out. *)
Inductive Invoked :=
| Bare
| Encrypt (files : option (list string))
| Decrypt (files : option (list string))
| Precommit.

Record Env := {
  world : World;
  signals : Invocation -> list Signal;
  invoked : Invoked
}.

(** An effect is a computation that succeeds, fails (here: throws) or does
    not end; [Effect.gen] with [yield*] is [bind]. *)

(** [Effect.either]. *)
Definition either {A} (m : M A) : M (JsError + A) :=
  fun p =>
    match m p with
    | (Ret a, p') => (Ret (inr a), p')
    | (Throw e, p') => (Ret (inl e), p')
    | (Exit c, p') => (Exit c, p')
    | (Pending, p') => (Pending, p')
    end.

(** [Effect.tryPromise({ try, catch })]. *)
Definition tryPromise {A} (try : M A) (catch : JsError -> JsError) : M A :=
  tryCatch try (fun error => throw (catch error)).

(** The variables the listeners of [executeCommand] close over, and what
    [resume] was first called with. *)
Record Resuming := {
  stdoutBuf : string;
  stderrBuf : string;
  resumed : option (JsError + ExecResult)
}.

Definition onSignal (s : Resuming * Proc) (sg : Signal) : Resuming * Proc :=
  let (l, p) := s in
  match sg with
  | Emitted (StdoutData data) =>
      ({| stdoutBuf := stdoutBuf l ++ data; stderrBuf := stderrBuf l;
          resumed := resumed l |},
       writeStdout data p)
  | Emitted (StderrData data) =>
      ({| stdoutBuf := stdoutBuf l; stderrBuf := stderrBuf l ++ data;
          resumed := resumed l |},
       writeStderr data p)
  | Emitted (Close code) =>
      ({| stdoutBuf := stdoutBuf l; stderrBuf := stderrBuf l;
          resumed :=
            match resumed l with
            | Some r => Some r
            | None =>
                Some (inr {| stdout := stdoutBuf l; stderr := stderrBuf l;
                             exitCode := (code ?? 0)%Z |})
            end |},
       p)
  | Errored error =>
      ({| stdoutBuf := stdoutBuf l; stderrBuf := stderrBuf l;
          resumed :=
            match resumed l with
            | Some r => Some r
            | None => Some (inl error)
            end |},
       p)
  end.

(** [executeCommand] (part_000 188-218). *)
Definition executeCommand (env : Env) (cmd : string) (args : list string)
  : M ExecResult :=
  fun p =>
    let spawn := Spawn cmd args true in
    let (l, p') :=
      fold_left onSignal (signals env spawn)
        ({| stdoutBuf := EmptyString; stderrBuf := EmptyString; resumed := None |},
         start spawn p) in
    match resumed l with
    | Some (inr r) => (Ret r, p')
    | Some (inl error) => (Throw error, p')
    | None => (Pending, p')
    end.

(** [findEnvFiles] (part_000 253-265). *)
Definition findEnvFiles (env : Env) : M (list string) :=
  tryPromise
    (ret (discovered (world env)))
    (fun error => Error ("Failed to find env files: " ++ showError error)).

(** The question [selectFilesInteractively] puts to [checkbox]; this
    prompt has no validation. *)
Definition selectQuestion (files : list string) (action : string) : Checkbox :=
  {| message := "Select .env files to " ++ action ++ ":";
     choices :=
       Item ("üóÇÔ∏è  All files (" ++ numberToString (List.length files) ++ " files)")
            "ALL" "All files"
       :: map (fun file => Item ("üìÑ " ++ file) file file) files;
     validate := fun _ => Valid |}.

(** [selectFilesInteractively] (part_000 273-316). *)
Definition selectFilesInteractively (env : Env) (files : list string)
           (action : string) : M (list string) :=
  tryPromise
    (if (List.length files =? 0)%nat then ret []
     else
       selectedFiles <- promptCheckbox (world env) (selectQuestion files action) ;;
       (* If "ALL" is selected, return all files *)
       if includes selectedFiles "ALL" then ret files else ret selectedFiles)
    (fun error =>
       (* Handle user cancellation (Ctrl+C) gracefully *)
       if String.eqb (errName error) "ExitPromptError"
       then Error "User cancelled selection"
       else Error ("Interactive selection failed: " ++ showError error)).

(** [validatePrerequisites] (part_000 321-343). *)
Definition validatePrerequisites (env : Env) : M bool :=
  consoleLog "dotenvx-interactive-cli" ;;
  (* Run both checks in parallel *)
  isDotenvxInstalled <- checkDotenvxInstallation (world env) ;;
  isEnvKeysFilePresent <- checkEnvKeysFile (world env) ;;
  if negb isDotenvxInstalled then
    consoleLog "‚ùå dotenvx is not installed on your system." ;;
    consoleLog installHint ;;
    throw (Error "dotenvx not installed")
  else if negb isEnvKeysFilePresent then
    consoleLog keyFileHint ;;
    throw (Error ".env.keys file not found")
  else
    consoleLog "üëå dotenvx is installed" ;;
    ret true.

(** [encryptCommand] (part_000 349-402). *)
Definition encryptCommand (env : Env) (files : option (list string)) : M unit :=
  validatePrerequisites env ;;
  envFiles <- findEnvFiles env ;;
  if (List.length envFiles =? 0)%nat then
    consoleLog "No .env files found in the current directory."
  else
    let run (filesToEncrypt : list string) : M unit :=
      consoleLog ("Encrypting files: " ++ join ", " filesToEncrypt) ;;
      result <- executeCommand env "dotenvx" ("encrypt" :: "-f" :: filesToEncrypt) ;;
      if Z.eqb (exitCode result) 0 then
        consoleLog "‚úì Files encrypted successfully"
      else
        consoleError ("‚ùå Failed to encrypt files: " ++ stderr result) ;;
        throw (Error "Encryption failed") in
    match files with
    | Some (f :: fs) =>
        (* Use provided files directly *)
        run (f :: fs)
    | _ =>
        (* Show interactive selection *)
        consoleLog EmptyString ;;
        result <- either (selectFilesInteractively env envFiles "encrypt") ;;
        match result with
        | inl failure =>
            if String.eqb (errMessage failure) "User cancelled selection" then
              consoleLog "üëã Selection cancelled. Until next time!"
            else throw failure
        | inr filesToEncrypt =>
            if (List.length filesToEncrypt =? 0)%nat then
              consoleLog "No files selected for encryption"
            else run filesToEncrypt
        end
    end.

(** [decryptCommand] (part_000 405-458). *)
Definition decryptCommand (env : Env) (files : option (list string)) : M unit :=
  validatePrerequisites env ;;
  envFiles <- findEnvFiles env ;;
  if (List.length envFiles =? 0)%nat then
    consoleLog "No .env files found in the current directory."
  else
    let run (filesToDecrypt : list string) : M unit :=
      consoleLog ("Decrypting files: " ++ join ", " filesToDecrypt) ;;
      result <- executeCommand env "dotenvx" ("decrypt" :: "-f" :: filesToDecrypt) ;;
      if Z.eqb (exitCode result) 0 then
        consoleLog "‚úì Files decrypted successfully"
      else
        consoleError ("‚ùå Failed to decrypt files: " ++ stderr result) ;;
        throw (Error "Decryption failed") in
    match files with
    | Some (f :: fs) =>
        (* Use provided files directly *)
        run (f :: fs)
    | _ =>
        (* Show interactive selection *)
        consoleLog EmptyString ;;
        result <- either (selectFilesInteractively env envFiles "decrypt") ;;
        match result with
        | inl failure =>
            if String.eqb (errMessage failure) "User cancelled selection" then
              consoleLog "üëã Selection cancelled. Until next time!"
            else throw failure
        | inr filesToDecrypt =>
            if (List.length filesToDecrypt =? 0)%nat then
              consoleLog "No files selected for decryption"
            else run filesToDecrypt
        end
    end.

(** [precommitCommand] (part_000 461-477). *)
Definition precommitCommand (env : Env) : M unit :=
  validatePrerequisites env ;;
  consoleLog "Installing precommit hook..." ;;
  result <- executeCommand env "dotenvx" ["ext"; "precommit"; "--install"] ;;
  if Z.eqb (exitCode result) 0 then
    consoleLog "üëç Precommit hook installed successfully"
  else
    consoleError ("‚ùå Failed to install precommit hook: " ++ stderr result) ;;
    throw (Error "Precommit installation failed").

(** [mainCommand] (part_000 480-494). *)
Definition mainCommand (env : Env) : M unit :=
  validatePrerequisites env ;;
  consoleLog EmptyString ;;
  consoleLog "Available commands:" ;;
  consoleLog "  encrypt    - Encrypt .env files" ;;
  consoleLog "  decrypt    - Decrypt .env files" ;;
  consoleLog "  precommit  - Install precommit hook" ;;
  consoleLog EmptyString ;;
  consoleLog "Use --help with any command for more information.".

(** [app], the handler of the parsed command (part_000 497-505). *)
Definition app (env : Env) : M unit :=
  match invoked env with
  | Bare => mainCommand env
  | Encrypt files => encryptCommand env files
  | Decrypt files => decryptCommand env files
  | Precommit => precommitCommand env
  end.

(** The effect handed to [NodeRuntime.runMain] (part_000 514-521). *)
Definition program (env : Env) : M unit :=
  tryCatch (app env)
    (fun error => consoleError ("‚ùå An error occurred: " ++ showError error)).

(** [runMain] ends the process with status 1 on a failure that is left. *)
Definition uncaught (error : JsError) : M unit :=
  consoleError (showError error) ;; processExit 1%Z.

Definition run (env : Env) : Outcome := runProcess uncaught (program env).

(** A child that emits no ['error']. *)
Definition quiet (w : World) (i : Invocation) : list Signal :=
  map Emitted (child w i).

End EffectCli.

(** Whether a child emits ['error'] or closes within a trace, and what
    comes before. *)
Fixpoint settlesAt (signals : list EffectCli.Signal)
  : option (list ChildEvent * (JsError + option Z)) :=
  match signals with
  | [] => None
  | EffectCli.Errored error :: _ => Some ([], inl error)
  | EffectCli.Emitted (Close code) :: _ => Some ([], inr code)
  | EffectCli.Emitted ev :: signals' =>
      match settlesAt signals' with
      | Some (before, how) => Some (ev :: before, how)
      | None => None
      end
  end.

(** The environment of a run of the [@effect/cli] generation whose
    children emit no ['error']. *)
Definition effectEnv (w : World) (parsed : EffectCli.Invoked) : EffectCli.Env :=
  {| EffectCli.world := w;
     EffectCli.signals := EffectCli.quiet w;
     EffectCli.invoked := parsed |}.

(** Everything a child emitted besides ['error']. *)
Fixpoint emitted (signals : list EffectCli.Signal) : list ChildEvent :=
  match signals with
  | [] => []
  | EffectCli.Emitted ev :: signals' => ev :: emitted signals'
  | EffectCli.Errored _ :: signals' => emitted signals'
  end.

(** The error [selectFilesInteractively] turns a rejection of the prompt
    into. *)
Definition selectionFailure (error : JsError) : JsError :=
  if String.eqb (errName error) "ExitPromptError"
  then Error "User cancelled selection"
  else Error ("Interactive selection failed: " ++ showError error).

(** * Properties *)

(** ** Strings and patterns *)

Section Strings.

Implicit Types s suffix pat pfx : string.

Lemma endsWith_refl s : endsWith s s = true.
Proof. destruct s; cbn [endsWith]; rewrite String.eqb_refl; reflexivity. Qed.

Lemma endsWith_app pfx suffix : endsWith (pfx ++ suffix) suffix = true.
Proof.
  induction pfx as [|c pfx IH]; cbn [append endsWith].
  - apply endsWith_refl.
  - rewrite IH. apply orb_true_r.
Qed.

Lemma endsWith_inv s suffix :
  endsWith s suffix = true -> exists pfx, s = pfx ++ suffix.
Proof.
  induction s as [|c s IH]; cbn [endsWith]; intros H.
  - rewrite orb_false_r in H. apply String.eqb_eq in H. now exists EmptyString.
  - apply orb_true_iff in H as [H|H].
    + apply String.eqb_eq in H. now exists EmptyString.
    + destruct (IH H) as [pfx ->]. now exists (String c pfx).
Qed.

Lemma minimatch_literal pat :
  literal pat = true -> forall s, minimatch pat s = String.eqb pat s.
Proof.
  induction pat as [|c pat IH]; simpl; intros L s.
  - now destruct s.
  - apply andb_true_iff in L as [Hc L].
    destruct (Ascii.eqb c "*"); [discriminate|].
    destruct s as [|d s]; [reflexivity|]. now rewrite IH.
Qed.

Lemma minimatch_star_unfold pat s :
  minimatch (String "*" pat) s =
  minimatch pat s ||
  match s with
  | EmptyString => false
  | String c s' => negb (Ascii.eqb c "/") && minimatch (String "*" pat) s'
  end.
Proof. destruct s; reflexivity. Qed.

(** An ignore pattern [*lit] only ever hits names ending in [lit]. *)
Lemma minimatch_star_suffix pat s :
  literal pat = true ->
  minimatch (String "*" pat) s = true -> endsWith s pat = true.
Proof.
  intros L. induction s as [|c s IH];
    rewrite minimatch_star_unfold; cbn [endsWith];
    rewrite (minimatch_literal pat L), String.eqb_sym.
  - now rewrite !orb_false_r.
  - intros H. apply orb_true_iff in H as [H|H].
    + now rewrite H.
    + apply andb_true_iff in H as [_ H]. rewrite (IH H). apply orb_true_r.
Qed.

Lemma minimatch_star_all s : noSlash s = true -> minimatch "*" s = true.
Proof.
  induction s as [|c s IH]; [reflexivity|].
  rewrite minimatch_star_unfold. cbn [noSlash]. intros H.
  apply andb_true_iff in H as [Hc H]. rewrite Hc, (IH H). apply orb_true_r.
Qed.

(** A pattern [lit*] hits exactly the names that begin with [lit]. *)
Lemma minimatch_prefix_star pfx :
  literal pfx = true ->
  forall s, noSlash s = true -> minimatch (pfx ++ "*") s = startsWith s pfx.
Proof.
  unfold startsWith.
  induction pfx as [|c pfx IH]; intros L s S.
  - cbn [append]. rewrite (minimatch_star_all s S). now destruct s.
  - cbn [literal] in L. apply andb_true_iff in L as [Hc L].
    cbn [append minimatch String.prefix].
    destruct (Ascii.eqb c "*"); [discriminate|].
    destruct s as [|d s]; [reflexivity|].
    cbn [noSlash] in S. apply andb_true_iff in S as [_ S].
    rewrite (IH L s S). cbn [String.prefix].
    destruct (ascii_dec c d) as [->|N].
    + now rewrite Ascii.eqb_refl.
    + apply Ascii.eqb_neq in N. now rewrite N.
Qed.

Lemma minimatch_prefix_star_inv pfx :
  literal pfx = true ->
  forall s, minimatch (pfx ++ "*") s = true -> startsWith s pfx = true.
Proof.
  unfold startsWith.
  induction pfx as [|c pfx IH]; intros L s.
  - now destruct s.
  - cbn [literal] in L. apply andb_true_iff in L as [Hc L].
    cbn [append minimatch String.prefix].
    destruct (Ascii.eqb c "*"); [discriminate|].
    destruct s as [|d s]; [discriminate|]. intros H.
    apply andb_true_iff in H as [Hcd H].
    apply Ascii.eqb_eq in Hcd as ->. cbn [String.prefix].
    destruct (ascii_dec d d) as [_|N]; [now apply IH | now elim N].
Qed.

Lemma startsWith_app pfx s : startsWith (pfx ++ s) pfx = true.
Proof.
  unfold startsWith. induction pfx as [|c pfx IH]; cbn [append String.prefix].
  - now destruct s.
  - destruct (ascii_dec c c) as [_|N]; [exact IH | now elim N].
Qed.

End Strings.

(** ** File discovery *)

Section Discovery.

Implicit Types (cwd extra : Directory) (e : DirEntry) (n f : string).

Lemma filter_map_filter {A B} (P : B -> bool) (g : A -> B) (Q : A -> bool)
      (l : list A) :
  filter P (map g (filter Q l)) = map g (filter (fun x => Q x && P (g x)) l).
Proof.
  induction l as [|x l IH]; [reflexivity|]. cbn [filter].
  destruct (Q x); cbn [andb map filter]; [|exact IH].
  destruct (P (g x)); cbn [map]; now rewrite IH.
Qed.

Lemma findEnvFiles_kept cwd : findEnvFiles cwd = map name (filter kept cwd).
Proof. unfold findEnvFiles, glob. now rewrite filter_map_filter. Qed.

Lemma candidates_filter cwd :
  candidates cwd =
  map name (filter (fun e => negb (isDirectory e) && isCandidate (name e)) cwd).
Proof. unfold candidates. now rewrite filter_map_filter. Qed.

(** Past the suffix filter, the ignore list only removes [.env.keys.json]. *)
Lemma ignored_after_filter n :
  endsWith n ".keys" = false -> endsWith n ".vault" = false ->
  existsb (fun ig => minimatch ig n) [".env.keys"; ".env.keys.json"; "*.vault"]
  = String.eqb n ".env.keys.json".
Proof.
  intros K V. cbn [existsb].
  rewrite (minimatch_literal ".env.keys" eq_refl).
  rewrite (minimatch_literal ".env.keys.json" eq_refl).
  destruct (String.eqb_spec ".env.keys" n) as [<-|_]; [discriminate K|].
  destruct (minimatch "*.vault" n) eqn:S.
  - apply (minimatch_star_suffix ".vault" n eq_refl) in S. congruence.
  - rewrite (String.eqb_sym n). now rewrite !orb_false_r.
Qed.

Lemma kept_prefix e : kept e = true -> startsWith (name e) ".env" = true.
Proof.
  unfold kept. intros H.
  repeat (apply andb_true_iff in H as [H _]).
  now apply (minimatch_prefix_star_inv ".env" eq_refl).
Qed.

Lemma kept_candidate e :
  noSlash (name e) = true ->
  kept e = negb (isDirectory e) && isCandidate (name e).
Proof.
  intros S. unfold kept, isCandidate.
  change ".env*" with (".env" ++ "*").
  rewrite (minimatch_prefix_star ".env" eq_refl _ S).
  destruct (endsWith (name e) ".keys") eqn:K, (endsWith (name e) ".vault") eqn:V;
    try rewrite (ignored_after_filter _ K V);
    generalize (existsb (fun ig => minimatch ig (name e))
                  [".env.keys"; ".env.keys.json"; "*.vault"]);
    intros ignored;
    destruct (startsWith (name e) ".env"), (String.eqb (name e) ".env.keys.json"),
      (isDirectory e), ignored; reflexivity.
Qed.

Lemma findEnvFiles_candidates cwd :
  validNames cwd -> findEnvFiles cwd = candidates cwd.
Proof.
  intros V. rewrite findEnvFiles_kept, candidates_filter. f_equal.
  apply filter_ext_in. intros e He. apply kept_candidate.
  unfold validNames in V. rewrite Forall_forall in V. now apply V.
Qed.

Lemma findEnvFiles_app cwd extra :
  findEnvFiles (cwd ++ extra)%list = (findEnvFiles cwd ++ findEnvFiles extra)%list.
Proof. now rewrite !findEnvFiles_kept, filter_app, map_app. Qed.

Lemma findEnvFiles_entry cwd f :
  In f (findEnvFiles cwd) -> exists e, In e cwd /\ name e = f /\ kept e = true.
Proof.
  rewrite findEnvFiles_kept, in_map_iff. intros [e [<- He]].
  apply filter_In in He as [He K]. now exists e.
Qed.

Lemma findEnvFiles_unrelated cwd :
  (forall e, In e cwd -> startsWith (name e) ".env" = false) ->
  findEnvFiles cwd = [].
Proof.
  intros U. destruct (findEnvFiles cwd) as [|f l] eqn:E; [reflexivity|].
  destruct (findEnvFiles_entry cwd f) as [e [He [_ K]]].
  - rewrite E. now left.
  - apply kept_prefix in K. rewrite (U e He) in K. discriminate.
Qed.

(** Where no stray [*.keys] file lies around, the code and the words of the
    specification agree. *)
Lemma findEnvFiles_spec_discover cwd :
  validNames cwd ->
  (forall e, In e cwd -> endsWith (name e) ".keys" = true -> name e = ".env.keys") ->
  findEnvFiles cwd = spec_discover cwd.
Proof.
  intros V K. rewrite (findEnvFiles_candidates cwd V).
  unfold candidates, spec_discover. apply filter_ext_in. intros n Hn.
  apply in_map_iff in Hn as [e [<- He]]. apply filter_In in He as [He _].
  unfold isCandidate.
  destruct (endsWith (name e) ".keys") eqn:E.
  - rewrite (K e He E). reflexivity.
  - destruct (String.eqb_spec (name e) ".env.keys") as [Q|_].
    + rewrite Q in E. discriminate E.
    + reflexivity.
Qed.

End Discovery.

(** C2, as the code has it: over a directory listing, [findEnvFiles]
    returns exactly the non-directory entries whose name begins with [.env],
    minus every name ending in [.keys] (the key file among them), the key
    file's JSON variant and every name ending in [.vault]; entries whose
    name does not begin with [.env] change nothing, however many there are,
    and a directory without a matching name gives the empty list. *)
Theorem findEnvFiles_exactly_candidates (cwd : Directory) :
  validNames cwd ->
  findEnvFiles cwd = candidates cwd
  /\ (forall extra : Directory,
        (forall e, In e extra -> startsWith (name e) ".env" = false) ->
        findEnvFiles (cwd ++ extra)%list = candidates cwd)
  /\ ((forall e, In e cwd -> startsWith (name e) ".env" = false) ->
      findEnvFiles cwd = []).
Proof.
  intros V. split; [|split].
  - now apply findEnvFiles_candidates.
  - intros extra U.
    rewrite findEnvFiles_app, (findEnvFiles_unrelated extra U), app_nil_r.
    now apply findEnvFiles_candidates.
  - apply findEnvFiles_unrelated.
Qed.

Lemma findEnvFiles_exactly_candidates_sample :
  validNames sampleDir
  /\ findEnvFiles sampleDir = [".env"; ".env.local"; ".environment"]
  /\ candidates sampleDir = [".env"; ".env.local"; ".environment"]
  /\ findEnvFiles sampleDir = candidates sampleDir.
Proof.
  assert (V : validNames sampleDir) by (repeat constructor).
  split; [exact V|]. split; [reflexivity|]. split; [reflexivity|].
  exact (proj1 (findEnvFiles_exactly_candidates sampleDir V)).
Defined.

(** C2 as stated fails: [.env.backup.keys] has the prefix and is neither
    the key file, nor its JSON variant, nor vault-suffixed, so the stated
    rule keeps it, and the code drops it. *)
Lemma findEnvFiles_drops_stray_keys :
  findEnvFiles strayKeys <> spec_discover strayKeys.
Proof. vm_compute. discriminate. Qed.

(** C10: every name [findEnvFiles] returns begins with [.env] and ends
    neither in [.keys] nor in [.vault], whatever the directory holds
    ([.env.backup.keys] is never returned); so none is the value ["ALL"] of
    the select-all row. *)
Theorem findEnvFiles_names (cwd : Directory) :
  (forall f, In f (findEnvFiles cwd) ->
     startsWith f ".env" = true
     /\ endsWith f ".keys" = false
     /\ endsWith f ".vault" = false
     /\ f <> "ALL")
  /\ ~ In ".env.backup.keys" (findEnvFiles cwd)
  /\ ~ In "ALL" (findEnvFiles cwd).
Proof.
  assert (N : forall f, In f (findEnvFiles cwd) ->
     startsWith f ".env" = true
     /\ endsWith f ".keys" = false /\ endsWith f ".vault" = false).
  { intros f H. destruct (findEnvFiles_entry cwd f H) as [e [_ [<- K]]].
    split; [now apply kept_prefix|].
    unfold kept in K. apply andb_true_iff in K as [_ K].
    apply andb_true_iff in K as [K1 K2].
    now rewrite negb_true_iff in K1, K2. }
  split; [|split].
  - intros f H. destruct (N f H) as [S [K V]].
    repeat split; trivial. intros ->. discriminate S.
  - intros H. apply N in H as [_ [K _]]. discriminate K.
  - intros H. apply N in H as [S _]. discriminate S.
Qed.

Lemma findEnvFiles_names_sample :
  In ".env.local" (findEnvFiles sampleDir)
  /\ startsWith ".env.local" ".env" = true
  /\ endsWith ".env.local" ".keys" = false
  /\ endsWith ".env.local" ".vault" = false
  /\ ".env.local" <> "ALL".
Proof.
  assert (H : In ".env.local" (findEnvFiles sampleDir)) by (vm_compute; tauto).
  split; [exact H|].
  exact (proj1 (findEnvFiles_names sampleDir) ".env.local" H).
Defined.

(** ** File selection *)

Section Selection.

Variable w : World.

Implicit Types (files selected : list string) (action : string) (p : Proc).

Lemma includes_In (arr : list string) (x : string) :
  includes arr x = true <-> In x arr.
Proof.
  unfold includes. rewrite existsb_exists. split.
  - intros [y [Hy E]]. apply String.eqb_eq in E. now subst.
  - intros H. exists x. split; [exact H | apply String.eqb_refl].
Qed.

Lemma checked_incl (values : list string) (marks : list bool) (x : string) :
  In x (checked values marks) -> In x values.
Proof.
  revert marks. induction values as [|v values IH]; intros [|m marks];
    cbn [checked]; try contradiction.
  intros H. apply in_app_or in H as [H|H].
  - destruct m; [|contradiction]. destruct H as [<-|[]]. now left.
  - right. now apply (IH marks).
Qed.

Lemma selectable_question files action :
  selectable (choices (selectQuestion files action)) = "ALL" :: files.
Proof.
  cbn [selectQuestion choices selectable]. f_equal.
  induction files as [|f files IH]; cbn [map selectable]; [reflexivity | now rewrite IH].
Qed.

(** With a non-empty list the prompt is shown, once. *)
Lemma selectFiles_asks files action p :
  files <> [] ->
  prompts (snd (selectFiles w files action p))
  = (prompts p ++ [message (selectQuestion files action)])%list.
Proof.
  intros N. unfold selectFiles. destruct files as [|f files]; [contradiction|].
  cbn [List.length Nat.eqb]. unfold bind, promptCheckbox.
  destruct (checkboxLoop _ _) as [sel| | |]; try reflexivity.
  now destruct (includes sel "ALL").
Qed.

(** Marking the select-all row, whatever else is marked, selects every
    file. *)
Lemma selectFiles_confirm_all files action p marks rest :
  files <> [] ->
  checkboxOperator w = Confirm (true :: marks) :: rest ->
  selectFiles w files action p
  = (Ret files, showPrompt (message (selectQuestion files action)) p).
Proof.
  intros N O. unfold selectFiles. destruct files as [|f files]; [contradiction|].
  cbn [List.length Nat.eqb]. unfold bind, promptCheckbox. now rewrite O.
Qed.

Lemma selectFiles_abort files action p e :
  files <> [] ->
  checkboxLoop (selectQuestion files action) (checkboxOperator w) = Throw e ->
  selectFiles w files action p
  = (Throw e, showPrompt (message (selectQuestion files action)) p).
Proof.
  intros N O. unfold selectFiles. destruct files as [|f files]; [contradiction|].
  cbn [List.length Nat.eqb]. unfold bind, promptCheckbox. now rewrite O.
Qed.

Lemma selectFiles_all_row files action p marks rest :
  files <> [] ->
  checkboxOperator w = Confirm (true :: marks) :: rest ->
  fst (selectFiles w files action p) = Ret files.
Proof.
  intros N O. now rewrite (selectFiles_confirm_all files action p marks rest N O).
Qed.

(** Without that row, only marked files come back, as long as no file is
    called ["ALL"]. *)
Lemma selectFiles_marked_only files action p marks rest :
  ~ In "ALL" files ->
  checked files marks <> [] ->
  checkboxOperator w = Confirm (false :: marks) :: rest ->
  fst (selectFiles w files action p) = Ret (checked files marks).
Proof.
  intros A C O. unfold selectFiles.
  destruct files as [|f files]; [now destruct marks|].
  cbn [List.length Nat.eqb]. unfold bind, promptCheckbox. rewrite O.
  cbn [checkboxLoop]. rewrite selectable_question.
  change (checked ("ALL" :: f :: files) (false :: marks))
    with (checked (f :: files) marks).
  destruct (checked (f :: files) marks) as [|x sel] eqn:E; [contradiction|].
  cbn [selectQuestion validate List.length Nat.eqb fst].
  destruct (includes (x :: sel) "ALL") eqn:I; [|reflexivity].
  apply includes_In in I. rewrite <- E in I. apply checked_incl in I.
  contradiction.
Qed.

(** The prompt never hands back an empty selection. *)
Lemma checkboxLoop_nonempty files action script selected :
  checkboxLoop (selectQuestion files action) script = Ret selected ->
  selected <> [].
Proof.
  induction script as [|[marks|e] script IH]; cbn [checkboxLoop];
    [discriminate | | discriminate].
  destruct (checked _ marks) as [|x sel] eqn:E;
    cbn [selectQuestion validate List.length Nat.eqb].
  - exact IH.
  - intros H. injection H as <-. discriminate.
Qed.

Lemma selectFiles_nonempty files action p selected :
  files <> [] ->
  fst (selectFiles w files action p) = Ret selected ->
  selected <> [].
Proof.
  intros N. unfold selectFiles. destruct files as [|f files]; [contradiction|].
  cbn [List.length Nat.eqb]. unfold bind, promptCheckbox.
  destruct (checkboxLoop _ _) as [sel| | |] eqn:L; try discriminate.
  destruct (includes sel "ALL"); cbn [ret fst]; intros H; injection H as <-.
  - discriminate.
  - exact (checkboxLoop_nonempty _ _ _ _ L).
Qed.

End Selection.

(** C8: on the empty candidate list [selectFiles] returns the empty
    selection at once: no prompt is shown (and nothing is started), whoever
    sits at the prompt. *)
Theorem selectFiles_empty (w : World) (action : string) (p : Proc) :
  fst (selectFiles w [] action p) = Ret []
  /\ prompts (snd (selectFiles w [] action p)) = prompts p
  /\ spawned (snd (selectFiles w [] action p)) = spawned p.
Proof. repeat split. Qed.

(** C4: on a non-empty candidate list, when the selection the operator
    confirms contains the select-all value, [selectFiles] returns the whole
    candidate list, whatever else the selection contains. *)
Theorem selectFiles_all (w : World) (files : list string) (action : string)
        (p : Proc) (selected : list string) :
  files <> [] ->
  checkboxLoop (selectQuestion files action) (checkboxOperator w) = Ret selected ->
  In "ALL" selected ->
  fst (selectFiles w files action p) = Ret files.
Proof.
  intros N L A. unfold selectFiles. destruct files as [|f files]; [contradiction|].
  cbn [List.length Nat.eqb]. unfold bind, promptCheckbox. rewrite L.
  apply includes_In in A. now rewrite A.
Qed.

Lemma selectFiles_all_sample :
  fst (selectFiles (world [] None NoReply [Confirm []; Confirm [true; false; true]] [])
         ["./.env"; "./.env.local"] "encrypt" startProc)
  = Ret ["./.env"; "./.env.local"].
Proof.
  apply (selectFiles_all _ _ _ _ ["ALL"; "./.env.local"]);
    [discriminate | reflexivity | now left].
Defined.

(** ** The subprocess runner *)

Section Runner.

Implicit Types (events before after : list ChildEvent) (p : Proc).

Lemma append_assoc (a b c : string) : (a ++ b) ++ c = a ++ (b ++ c).
Proof. induction a as [|x a IH]; cbn [append]; [reflexivity | now rewrite IH]. Qed.

Lemma append_empty_r (a : string) : a ++ EmptyString = a.
Proof. induction a as [|x a IH]; cbn [append]; [reflexivity | now rewrite IH]. Qed.

Lemma closes_app_close before code after :
  closes (before ++ Close code :: after) = true.
Proof. induction before as [|[d|d|c] before IH]; cbn; trivial. Qed.

(** Every trace that closes splits at its first [Close]. *)
Lemma closes_split events :
  closes events = true ->
  exists before code after,
    events = (before ++ Close code :: after)%list /\ closes before = false.
Proof.
  induction events as [|ev events IH]; [discriminate|].
  destruct ev as [d|d|code]; cbn [closes]; intros H.
  - destruct (IH H) as (b & c & a & -> & Hb). now exists (StdoutData d :: b), c, a.
  - destruct (IH H) as (b & c & a & -> & Hb). now exists (StderrData d :: b), c, a.
  - now exists [], code, events.
Qed.

(** *** [child_process.spawn]: the listeners of part_001 *)

Lemma listen_open before :
  closes before = false ->
  forall l p,
    NodeSpawn.settled l = None ->
    fst (fold_left NodeSpawn.dispatch before (l, p))
    = {| NodeSpawn.stdoutBuf := NodeSpawn.stdoutBuf l ++ stdoutOf before;
         NodeSpawn.stderrBuf := NodeSpawn.stderrBuf l ++ stderrOf before;
         NodeSpawn.settled := None |}.
Proof.
  induction before as [|ev before IH]; intros C l p S.
  - destruct l. cbn in *. now rewrite !append_empty_r, S.
  - destruct ev as [d|d|code]; [| |discriminate C]; cbn [closes] in C;
      cbn [fold_left NodeSpawn.dispatch NodeSpawn.onStdoutData
           NodeSpawn.onStderrData];
      rewrite (IH C) by exact S; cbn; now rewrite append_assoc.
Qed.

Lemma listen_settled events :
  forall l p r,
    NodeSpawn.settled l = Some r ->
    NodeSpawn.settled (fst (fold_left NodeSpawn.dispatch events (l, p))) = Some r.
Proof.
  induction events as [|ev events IH]; intros l p r S; [exact S|].
  destruct ev as [d|d|code]; cbn [fold_left NodeSpawn.dispatch
    NodeSpawn.onStdoutData NodeSpawn.onStderrData NodeSpawn.onClose];
    apply IH; cbn; try exact S. now rewrite S.
Qed.

Lemma listen_spawned events :
  forall l p, spawned (snd (fold_left NodeSpawn.dispatch events (l, p))) = spawned p.
Proof.
  induction events as [|ev events IH]; intros l p; [reflexivity|].
  destruct ev as [d|d|code]; cbn [fold_left NodeSpawn.dispatch
    NodeSpawn.onStdoutData NodeSpawn.onStderrData NodeSpawn.onClose];
    now rewrite IH.
Qed.

Lemma executeCommand_settles (w : World) cmd args p :
  fst (NodeSpawn.executeCommand w cmd args p)
  = match NodeSpawn.settled
            (fst (NodeSpawn.listen (child w (Spawn cmd args true))
                    (start (Spawn cmd args true) p))) with
    | Some r => Ret r
    | None => Pending
    end.
Proof.
  unfold NodeSpawn.executeCommand.
  destruct (NodeSpawn.listen _ _) as [l p']. cbn [fst].
  now destruct (NodeSpawn.settled l).
Qed.

Lemma listen_closed before code after p :
  closes before = false ->
  NodeSpawn.settled
    (fst (NodeSpawn.listen (before ++ Close code :: after) p))
  = Some {| stdout := stdoutOf before; stderr := stderrOf before;
            exitCode := (code ?? 0)%Z |}.
Proof.
  intros C. unfold NodeSpawn.listen. rewrite fold_left_app.
  destruct (fold_left NodeSpawn.dispatch before (NodeSpawn.listening, p))
    as [l p'] eqn:E.
  assert (L := listen_open before C NodeSpawn.listening p eq_refl).
  rewrite E in L. cbn [fst] in L. subst l.
  cbn [fold_left NodeSpawn.dispatch NodeSpawn.onClose].
  now apply listen_settled.
Qed.

Lemma spawn_contract :
  RunnerContract NodeSpawn.executeCommand (fun cmd args => Spawn cmd args true).
Proof.
  intros w cmd args p. repeat split.
  - intros before code after E C.
    now rewrite executeCommand_settles, E, listen_closed.
  - intros C. rewrite executeCommand_settles. unfold NodeSpawn.listen.
    now rewrite (listen_open _ C).
  - intros e. rewrite executeCommand_settles. now destruct (NodeSpawn.settled _).
  - intros c. rewrite executeCommand_settles. now destruct (NodeSpawn.settled _).
  - unfold NodeSpawn.executeCommand, NodeSpawn.listen.
    destruct (fold_left _ _ _) as [l p'] eqn:E.
    assert (S := listen_spawned (child w (Spawn cmd args true))
                   NodeSpawn.listening (start (Spawn cmd args true) p)).
    rewrite E in S. cbn [snd] in S.
    now destruct (NodeSpawn.settled l).
Qed.

(** *** [zx]: the awaited command of src/index.ts *)

Lemma collect_closed before code after :
  closes before = false ->
  forall out err,
    Zx.collect (before ++ Close code :: after) out err
    = Some (out ++ stdoutOf before, err ++ stderrOf before, code).
Proof.
  induction before as [|ev before IH]; intros C out err.
  - cbn. now rewrite !append_empty_r.
  - destruct ev as [d|d|c]; [| |discriminate C]; cbn [closes] in C;
      cbn [app Zx.collect stdoutOf stderrOf]; rewrite (IH C);
      now rewrite append_assoc.
Qed.

Lemma collect_open events :
  closes events = false -> forall out err, Zx.collect events out err = None.
Proof.
  induction events as [|ev events IH]; intros C out err; [reflexivity|].
  destruct ev as [d|d|c]; [| |discriminate C]; cbn [closes] in C;
    cbn [Zx.collect]; now apply IH.
Qed.

Lemma zx_contract :
  RunnerContract Zx.executeCommand (fun cmd args => ZxCall (cmd :: args)).
Proof.
  intros w cmd args p.
  unfold Zx.executeCommand, bind, Zx.dollarNothrow. repeat split.
  - intros before code after E C. rewrite E, (collect_closed _ _ _ C).
    reflexivity.
  - intros C. now rewrite (collect_open _ C).
  - intros e. now destruct (Zx.collect _ _ _) as [[[out err] code]|].
  - intros c. now destruct (Zx.collect _ _ _) as [[[out err] code]|].
  - now destruct (Zx.collect _ _ _) as [[[out err] code]|].
Qed.

End Runner.

(** C7: the runners of part_001 ([child_process.spawn]) and of
    src/index.ts ([zx] with [nothrow]) settle when the child closes and not
    before, with the child's exit status, or 0 where it has none; no exit
    status makes them throw. *)
Theorem executeCommand_contract :
  RunnerContract NodeSpawn.executeCommand (fun cmd args => Spawn cmd args true)
  /\ RunnerContract Zx.executeCommand (fun cmd args => ZxCall (cmd :: args)).
Proof. split; [exact spawn_contract | exact zx_contract]. Qed.

Lemma executeCommand_contract_sample :
  fst (NodeSpawn.executeCommand (childFails "decrypt") "dotenvx"
         ["decrypt"; "-f"; ".env"] startProc)
  = Ret {| stdout := EmptyString; stderr := "boom"; exitCode := 2%Z |}.
Proof.
  exact (proj1 (proj1 executeCommand_contract (childFails "decrypt") "dotenvx"
                  ["decrypt"; "-f"; ".env"] startProc)
           [StderrData "boom"] (Some 2%Z) [] eq_refl eq_refl).
Defined.

(** ** Argument passing *)

(** Under [shell: true] the boundaries between arguments are gone: argument
    lists with the same space-joined text reach the system as one and the
    same argument vector. *)
Lemma spawnArgv_joined (cmd : string) (args args' : list string) :
  join " " args = join " " args' ->
  args <> [] -> args' <> [] ->
  NodeSpawn.spawnArgv cmd args true = NodeSpawn.spawnArgv cmd args' true.
Proof.
  intros J N N'. unfold NodeSpawn.spawnArgv.
  destruct args as [|a args]; [contradiction|].
  destruct args' as [|a' args']; [contradiction|].
  cbn [join] in *. fold (join " " (a :: args)). fold (join " " (a' :: args')).
  now rewrite J.
Qed.

(** C1 fails on the code. part_001: with the file [.env local] selected,
    [executeCommand] starts the child through a shell, and what the system
    receives is the single command line [dotenvx encrypt -f .env local],
    the same as for the two arguments [.env] and [local].  part_000 (first
    document): [main] itself joins the selected files into one string and
    splices it, unquoted, into the command line. *)
Theorem arguments_collapse_into_command_line :
  spawned (trace (NodeSpawn.run spacedName))
  = [SpawnSync "which" ["dotenvx"];
     Spawn "dotenvx" ["encrypt"; "-f"; ".env local"] true]
  /\ NodeSpawn.spawnArgv "dotenvx" ["encrypt"; "-f"; ".env local"] true
     = ["/bin/sh"; "-c"; "dotenvx encrypt -f .env local"]
  /\ NodeSpawn.spawnArgv "dotenvx" ["encrypt"; "-f"; ".env"; "local"] true
     = ["/bin/sh"; "-c"; "dotenvx encrypt -f .env local"]
  /\ In (BunCall "dotenvx encrypt -f .env local")
        (spawned (trace (BunShell.run spacedName)))
  /\ BunShell.fileArgs [".env local"] = BunShell.fileArgs [".env"; "local"].
Proof. repeat split. vm_compute. tauto. Qed.

(** ** The orchestrator *)

(** The help flag ends the run with status 0 before any check, prompt or
    subprocess. *)
Lemma Zx_help (w : World) :
  includes (argv w) "--help" || includes (argv w) "-h" = true ->
  exitStatus (Zx.run w) = Some 0%Z
  /\ prompts (trace (Zx.run w)) = []
  /\ spawned (trace (Zx.run w)) = [].
Proof.
  intros H. unfold Zx.run, runProcess, Zx.program, tryCatch, Zx.main, bind.
  rewrite H. repeat split.
Qed.

Lemma NodeSpawn_help (w : World) :
  includes (argv w) "--help" || includes (argv w) "-h" = true ->
  exitStatus (NodeSpawn.run w) = Some 0%Z
  /\ prompts (trace (NodeSpawn.run w)) = []
  /\ spawned (trace (NodeSpawn.run w)) = [].
Proof.
  intros H.
  unfold NodeSpawn.run, runProcess, NodeSpawn.program, tryCatch, NodeSpawn.main, bind.
  rewrite H. repeat split.
Qed.

Section Orchestration.

Variable w : World.

Hypothesis no_help : includes (argv w) "--help" = false.
Hypothesis no_h : includes (argv w) "-h" = false.

Lemma checkEnvKeysFile_absent (p : Proc) :
  hasEntry w ".env.keys" = false -> checkEnvKeysFile w p = (Ret false, p).
Proof.
  intros A. unfold checkEnvKeysFile, tryCatch, bind, fsAccess. now rewrite A.
Qed.

Lemma checkEnvKeysFile_present (p : Proc) :
  hasEntry w ".env.keys" = true -> checkEnvKeysFile w p = (Ret true, p).
Proof.
  intros A. unfold checkEnvKeysFile, tryCatch, bind, fsAccess. now rewrite A.
Qed.

(** *** Blocked at the prerequisite check (src/index.ts) *)

Lemma Zx_blocked_without_tool :
  onSearchPath w = false ->
  Zx.run w
  = {| exitStatus := Some 1%Z;
       trace :=
         mkProc
           [ "dotenvx-interactive-cli";
             "Help Flag Check: " ++ elapsed w "Help Flag Check";
             "Startup Checks: " ++ elapsed w "Startup Checks";
             "❌ dotenvx is not installed on your system.";
             installHint ]
           [ "❌ An error occurred: Error: dotenvx not installed" ]
           []
           [ lookup w ] |}.
Proof.
  intros T. unfold Zx.run, runProcess, Zx.program, tryCatch, Zx.main, bind.
  rewrite no_help, no_h. cbn [orb].
  unfold checkDotenvxInstallation. rewrite T.
  destruct (hasEntry w ".env.keys") eqn:K.
  - cbn. rewrite checkEnvKeysFile_present by exact K. reflexivity.
  - cbn. rewrite checkEnvKeysFile_absent by exact K. reflexivity.
Qed.

Lemma Zx_blocked_without_key :
  onSearchPath w = true ->
  hasEntry w ".env.keys" = false ->
  Zx.run w
  = {| exitStatus := Some 1%Z;
       trace :=
         mkProc
           [ "dotenvx-interactive-cli";
             "Help Flag Check: " ++ elapsed w "Help Flag Check";
             "Startup Checks: " ++ elapsed w "Startup Checks";
             keyFileHint ]
           [ "❌ An error occurred: Error: .env.keys file not found" ]
           []
           [ lookup w ] |}.
Proof.
  intros T K. unfold Zx.run, runProcess, Zx.program, tryCatch, Zx.main, bind.
  rewrite no_help, no_h. cbn [orb].
  unfold checkDotenvxInstallation. rewrite T.
  cbn. rewrite checkEnvKeysFile_absent by exact K. reflexivity.
Qed.

(** *** Past the prerequisite check *)

Hypothesis tool : onSearchPath w = true.
Hypothesis key : hasEntry w ".env.keys" = true.

Ltac start_Zx :=
  unfold Zx.run, runProcess, Zx.program, tryCatch, Zx.main, bind;
  rewrite no_help, no_h; cbn [orb];
  unfold checkDotenvxInstallation; rewrite tool;
  cbn -[findEnvFiles selectFiles Zx.executeCommand];
  rewrite checkEnvKeysFile_present by exact key;
  unfold promptList.

Ltac start_NodeSpawn :=
  unfold NodeSpawn.run, runProcess, NodeSpawn.program, tryCatch, NodeSpawn.main, bind;
  rewrite no_help, no_h; cbn [orb];
  unfold checkDotenvxInstallation; rewrite tool;
  cbn -[findEnvFiles selectFiles NodeSpawn.executeCommand];
  rewrite checkEnvKeysFile_present by exact key;
  unfold promptList.

(** *** The Exit row of the menu *)

Lemma Zx_exit_choice :
  menuOperator w = Answer "exit" ->
  Zx.run w
  = {| exitStatus := Some 1%Z;
       trace :=
         mkProc (stdoutLog (Zx.atMenu w) ++ [EmptyString])
                [ "❌ An error occurred: Error: User exited" ]
                (prompts (Zx.atMenu w)) (spawned (Zx.atMenu w)) |}.
Proof. intros A. start_Zx. rewrite A. reflexivity. Qed.

Lemma NodeSpawn_exit_choice :
  menuOperator w = Answer "exit" ->
  NodeSpawn.run w
  = {| exitStatus := Some 1%Z;
       trace :=
         mkProc (stdoutLog (NodeSpawn.atMenu w) ++ [EmptyString])
                [ "❌ An error occurred: Error: User exited" ]
                (prompts (NodeSpawn.atMenu w)) (spawned (NodeSpawn.atMenu w)) |}.
Proof. intros A. start_NodeSpawn. rewrite A. reflexivity. Qed.

(** *** An interrupted file selection *)

Lemma Zx_selection_cancelled f fs e :
  menuOperator w = Answer "encrypt" ->
  findEnvFiles (cwd w) = f :: fs ->
  checkboxLoop (selectQuestion (f :: fs) "encrypt") (checkboxOperator w) = Throw e ->
  Zx.run w
  = {| exitStatus := Some 1%Z;
       trace :=
         mkProc (stdoutLog (Zx.atMenu w) ++ [EmptyString])
                [ "Error encrypting files: " ++ showError e;
                  "❌ An error occurred: " ++ showError e ]
                (prompts (Zx.atMenu w) ++ [message (selectQuestion (f :: fs) "encrypt")])
                (spawned (Zx.atMenu w)) |}.
Proof.
  intros A F C. start_Zx. rewrite A.
  cbn -[findEnvFiles selectFiles Zx.executeCommand]. rewrite F.
  unfold tryCatch. cbn beta.
  rewrite (selectFiles_abort w (f :: fs) "encrypt" _ e) by (discriminate || exact C).
  reflexivity.
Qed.

Lemma NodeSpawn_selection_cancelled f fs e :
  menuOperator w = Answer "encrypt" ->
  findEnvFiles (cwd w) = f :: fs ->
  checkboxLoop (selectQuestion (f :: fs) "encrypt") (checkboxOperator w) = Throw e ->
  NodeSpawn.promptExited e = true ->
  NodeSpawn.run w
  = {| exitStatus := Some 0%Z;
       trace :=
         mkProc (stdoutLog (NodeSpawn.atMenu w)
                   ++ [EmptyString; "👋 Prompt exited. Until next time!"])
                [ "Error encrypting files: " ++ showError e ]
                (prompts (NodeSpawn.atMenu w)
                   ++ [message (selectQuestion (f :: fs) "encrypt")])
                (spawned (NodeSpawn.atMenu w)) |}.
Proof.
  intros A F C X. start_NodeSpawn. rewrite A.
  cbn -[findEnvFiles selectFiles NodeSpawn.executeCommand]. rewrite F.
  unfold tryCatch. cbn beta.
  rewrite (selectFiles_abort w (f :: fs) "encrypt" _ e) by (discriminate || exact C).
  cbn. rewrite X. reflexivity.
Qed.

(** *** A child that exits, with whatever status *)

Lemma Zx_executeCommand_closed cmd args p before code after :
  child w (ZxCall (cmd :: args)) = (before ++ Close code :: after)%list ->
  closes before = false ->
  Zx.executeCommand w cmd args p
  = (Ret {| stdout := stdoutOf before; stderr := stderrOf before;
            exitCode := (code ?? 0)%Z |},
     start (ZxCall (cmd :: args)) p).
Proof.
  intros E C. unfold Zx.executeCommand, bind, Zx.dollarNothrow.
  now rewrite E, (collect_closed _ _ _ C).
Qed.

Lemma Zx_encrypt_any_status f fs marks rest before code after :
  menuOperator w = Answer "encrypt" ->
  findEnvFiles (cwd w) = f :: fs ->
  checkboxOperator w = Confirm (true :: marks) :: rest ->
  child w (ZxCall ("dotenvx" :: "encrypt" :: "-f" :: f :: fs))
  = (before ++ Close code :: after)%list ->
  closes before = false ->
  Zx.run w
  = {| exitStatus := Some 0%Z;
       trace :=
         mkProc (stdoutLog (Zx.atMenu w)
                   ++ [EmptyString; "✓ Files encrypted successfully"])
                []
                (prompts (Zx.atMenu w)
                   ++ [message (selectQuestion (f :: fs) "encrypt")])
                (spawned (Zx.atMenu w)
                   ++ [ZxCall ("dotenvx" :: "encrypt" :: "-f" :: f :: fs)]) |}.
Proof.
  intros A F O E C. start_Zx. rewrite A.
  cbn -[findEnvFiles selectFiles Zx.executeCommand]. rewrite F.
  unfold tryCatch. cbn beta.
  rewrite (selectFiles_confirm_all w (f :: fs) "encrypt" _ marks rest)
    by (discriminate || exact O).
  cbn -[Zx.executeCommand].
  rewrite (Zx_executeCommand_closed _ _ _ before code after E C).
  reflexivity.
Qed.

Lemma NodeSpawn_executeCommand_closed cmd args p before code after :
  child w (Spawn cmd args true) = (before ++ Close code :: after)%list ->
  closes before = false ->
  exists p',
    NodeSpawn.executeCommand w cmd args p
    = (Ret {| stdout := stdoutOf before; stderr := stderrOf before;
              exitCode := (code ?? 0)%Z |}, p').
Proof.
  intros E C.
  destruct (NodeSpawn.executeCommand w cmd args p) as [r p'] eqn:X.
  exists p'. f_equal.
  change r with (fst (r, p')). rewrite <- X.
  exact (proj1 (spawn_contract w cmd args p) before code after E C).
Qed.

Lemma NodeSpawn_encrypt_any_status f fs marks rest before code after :
  menuOperator w = Answer "encrypt" ->
  findEnvFiles (cwd w) = f :: fs ->
  checkboxOperator w = Confirm (true :: marks) :: rest ->
  child w (Spawn "dotenvx" ("encrypt" :: "-f" :: f :: fs) true)
  = (before ++ Close code :: after)%list ->
  closes before = false ->
  exitStatus (NodeSpawn.run w) = Some 0%Z
  /\ In "✓ Files encrypted successfully" (stdoutLog (trace (NodeSpawn.run w))).
Proof.
  intros A F O E C. start_NodeSpawn. rewrite A.
  cbn -[findEnvFiles selectFiles NodeSpawn.executeCommand]. rewrite F.
  unfold tryCatch. cbn beta.
  rewrite (selectFiles_confirm_all w (f :: fs) "encrypt" _ marks rest)
    by (discriminate || exact O).
  cbn -[NodeSpawn.executeCommand].
  match goal with
  | |- context [NodeSpawn.executeCommand w ?c ?a ?p] =>
      destruct (NodeSpawn_executeCommand_closed c a p before code after E C)
        as [p' X]; rewrite X
  end.
  cbn. split; [reflexivity|].
  apply in_or_app. right. now left.
Qed.

Lemma NodeSpawn_decrypt_failure f fs marks rest before code after :
  menuOperator w = Answer "decrypt" ->
  findEnvFiles (cwd w) = f :: fs ->
  checkboxOperator w = Confirm (true :: marks) :: rest ->
  child w (Spawn "dotenvx" ("decrypt" :: "-f" :: f :: fs) true)
  = (before ++ Close (Some code) :: after)%list ->
  closes before = false ->
  code <> 0%Z ->
  exitStatus (NodeSpawn.run w) = Some 0%Z
  /\ In ("❌ Failed to decrypt files: " ++ stderrOf before)
        (stderrLog (trace (NodeSpawn.run w))).
Proof.
  intros A F O E C N. start_NodeSpawn. rewrite A.
  cbn -[findEnvFiles selectFiles NodeSpawn.executeCommand]. rewrite F.
  unfold tryCatch. cbn beta.
  rewrite (selectFiles_confirm_all w (f :: fs) "decrypt" _ marks rest)
    by (discriminate || exact O).
  cbn -[NodeSpawn.executeCommand].
  match goal with
  | |- context [NodeSpawn.executeCommand w ?c ?a ?p] =>
      destruct (NodeSpawn_executeCommand_closed c a p before (Some code) after E C)
        as [p' X]; rewrite X
  end.
  cbn.
  apply Z.eqb_neq in N. rewrite N. cbn. split; [reflexivity|].
  apply in_or_app. right. now left.
Qed.

End Orchestration.

(** C9, as the code has it: when the prerequisite check runs (no help
    flag) and the working directory has no key file, [checkEnvKeysFile]
    answers false and the run ends with status 1; the create-a-key-file
    remediation is printed when [dotenvx] is on the search path; when it is
    not, the install remediation is printed and the key-file one is not. *)
Theorem keyfile_absent_blocks (w : World) :
  includes (argv w) "--help" = false ->
  includes (argv w) "-h" = false ->
  hasEntry w ".env.keys" = false ->
  (forall p, checkEnvKeysFile w p = (Ret false, p))
  /\ exitStatus (Zx.run w) = Some 1%Z
  /\ (onSearchPath w = true ->
      In keyFileHint (stdoutLog (trace (Zx.run w))))
  /\ (onSearchPath w = false ->
      In installHint (stdoutLog (trace (Zx.run w)))
      /\ ~ In keyFileHint (stdoutLog (trace (Zx.run w)))).
Proof.
  intros H1 H2 K. split; [|split; [|split]].
  - intros p. now apply checkEnvKeysFile_absent.
  - destruct (onSearchPath w) eqn:T.
    + now rewrite (Zx_blocked_without_key w H1 H2 T K).
    + now rewrite (Zx_blocked_without_tool w H1 H2 T).
  - intros T. rewrite (Zx_blocked_without_key w H1 H2 T K).
    cbn [trace stdoutLog]. do 3 right. now left.
  - intros T. rewrite (Zx_blocked_without_tool w H1 H2 T).
    cbn [trace stdoutLog]. split.
    + do 4 right. now left.
    + intros [H|[H|[H|[H|[H|[]]]]]]; discriminate H.
Qed.

Lemma keyfile_absent_blocks_sample :
  exitStatus (Zx.run keyFileMissing) = Some 1%Z
  /\ In keyFileHint (stdoutLog (trace (Zx.run keyFileMissing))).
Proof.
  destruct (keyfile_absent_blocks keyFileMissing eq_refl eq_refl eq_refl)
    as [_ [E [K _]]].
  split; [exact E | exact (K eq_refl)].
Defined.

(** C9 as stated fails: with neither [dotenvx] nor a key file, the run
    ends on the install remediation and the create-a-key-file one is never
    printed. *)
Lemma keyfile_hint_waits_for_tool :
  hasEntry nothingInstalled ".env.keys" = false
  /\ onSearchPath nothingInstalled = false
  /\ ~ In keyFileHint (stdoutLog (trace (Zx.run nothingInstalled))).
Proof.
  repeat split.
  exact (proj2 (proj2 (proj2 (proj2
    (keyfile_absent_blocks nothingInstalled eq_refl eq_refl eq_refl))) eq_refl)).
Qed.

(** C5 fails on src/index.ts and part_001: the Exit row throws
    [Error("User exited")], which [main().catch] reports as an error before
    it exits with status 1; the Bun shell generation exits with 0 there. *)
Theorem exit_choice_is_reported_as_error :
  exitStatus (Zx.run operatorExits) = Some 1%Z
  /\ stderrLog (trace (Zx.run operatorExits))
     = ["❌ An error occurred: Error: User exited"]
  /\ exitStatus (NodeSpawn.run operatorExits) = Some 1%Z
  /\ stderrLog (trace (NodeSpawn.run operatorExits))
     = ["❌ An error occurred: Error: User exited"]
  /\ exitStatus (BunShell.run operatorExits) = Some 0%Z.
Proof.
  rewrite (Zx_exit_choice operatorExits eq_refl eq_refl eq_refl eq_refl eq_refl).
  rewrite (NodeSpawn_exit_choice operatorExits
             eq_refl eq_refl eq_refl eq_refl eq_refl).
  repeat split.
Qed.

(** C6 fails on src/index.ts: an interrupted file selection rejects
    [main()], and [main().catch] reports it as an error and exits with
    status 1, without the farewell (the [uncaughtException] listener that
    holds it never runs); no [dotenvx] command is started.  part_001 prints
    the farewell and exits with 0 on the same input. *)
Theorem cancelled_selection_exits_1 :
  exitStatus (Zx.run operatorCancels) = Some 1%Z
  /\ stderrLog (trace (Zx.run operatorCancels))
     = [ "Error encrypting files: " ++ showError ExitPromptError;
         "❌ An error occurred: " ++ showError ExitPromptError ]
  /\ ~ In "👋 until next time!" (stdoutLog (trace (Zx.run operatorCancels)))
  /\ spawned (trace (Zx.run operatorCancels)) = [SpawnSync "which" ["dotenvx"]]
  /\ exitStatus (NodeSpawn.run operatorCancels) = Some 0%Z
  /\ In "👋 Prompt exited. Until next time!"
        (stdoutLog (trace (NodeSpawn.run operatorCancels)))
  /\ spawned (trace (NodeSpawn.run operatorCancels))
     = [SpawnSync "which" ["dotenvx"]].
Proof.
  rewrite (Zx_selection_cancelled operatorCancels eq_refl eq_refl eq_refl eq_refl
             ".env" [".env.local"] ExitPromptError eq_refl eq_refl eq_refl).
  rewrite (NodeSpawn_selection_cancelled operatorCancels
             eq_refl eq_refl eq_refl eq_refl
             ".env" [".env.local"] ExitPromptError eq_refl eq_refl eq_refl eq_refl).
  repeat split.
  - cbn. intros H. repeat (destruct H as [H|H]; [discriminate H|]). exact H.
  - cbn. do 4 right. now left.
Qed.

(** C3 fails on the code: with a child that writes [boom] to its standard
    error and exits with status 2, Encrypt (src/index.ts, part_001) and
    Install precommit hook (part_001) print their success message, and
    every action, Decrypt of part_001 with its failure report included,
    leaves the exit status at 0. *)
Theorem failed_child_ends_with_status_0 :
  exitStatus (Zx.run (childFails "encrypt")) = Some 0%Z
  /\ In "✓ Files encrypted successfully"
        (stdoutLog (trace (Zx.run (childFails "encrypt"))))
  /\ stderrLog (trace (Zx.run (childFails "encrypt"))) = []
  /\ exitStatus (NodeSpawn.run (childFails "encrypt")) = Some 0%Z
  /\ In "✓ Files encrypted successfully"
        (stdoutLog (trace (NodeSpawn.run (childFails "encrypt"))))
  /\ exitStatus (NodeSpawn.run (childFails "decrypt")) = Some 0%Z
  /\ stderrLog (trace (NodeSpawn.run (childFails "decrypt")))
     = ["boom"; "❌ Failed to decrypt files: boom"]
  /\ exitStatus (NodeSpawn.run (childFails "precommit")) = Some 0%Z
  /\ In "👍 Precommit hook installed successfully"
        (stdoutLog (trace (NodeSpawn.run (childFails "precommit")))).
Proof.
  rewrite (Zx_encrypt_any_status (childFails "encrypt")
             eq_refl eq_refl eq_refl eq_refl
             ".env" [".env.local"] [] [] [StderrData "boom"] (Some 2%Z) []
             eq_refl eq_refl eq_refl eq_refl eq_refl).
  repeat split; vm_compute; tauto.
Qed.

(** * Further properties of the embedded code *)

(** ** Start of a run *)

(** X1: with [--help] or [-h] among the arguments, [main] of src/index.ts
    and of part_001 prints the usage text and ends the process with status
    0 before any probe, prompt or subprocess. *)
Theorem help_flag_short_circuits (w : World) :
  includes (argv w) "--help" || includes (argv w) "-h" = true ->
  (exitStatus (Zx.run w) = Some 0%Z
   /\ In helpText (stdoutLog (trace (Zx.run w)))
   /\ prompts (trace (Zx.run w)) = []
   /\ spawned (trace (Zx.run w)) = [])
  /\ (exitStatus (NodeSpawn.run w) = Some 0%Z
      /\ In helpText (stdoutLog (trace (NodeSpawn.run w)))
      /\ prompts (trace (NodeSpawn.run w)) = []
      /\ spawned (trace (NodeSpawn.run w)) = []).
Proof.
  intros H. split.
  - unfold Zx.run, runProcess, Zx.program, tryCatch, Zx.main, bind.
    rewrite H. cbn. repeat split. right. now left.
  - unfold NodeSpawn.run, runProcess, NodeSpawn.program, tryCatch,
      NodeSpawn.main, bind.
    rewrite H. cbn. repeat split. right. now left.
Qed.

Lemma help_flag_short_circuits_sample :
  exitStatus
    (NodeSpawn.run
       {| argv := ["node"; "dist/index.js"; "-h"]; platform := "linux";
          whichStatus := None; cwd := []; menuOperator := NoReply;
          checkboxOperator := []; child := fun _ => [];
          elapsed := fun _ => "0ms" |})
  = Some 0%Z.
Proof.
  exact (proj1 (proj2 (help_flag_short_circuits
    {| argv := ["node"; "dist/index.js"; "-h"]; platform := "linux";
       whichStatus := None; cwd := []; menuOperator := NoReply;
       checkboxOperator := []; child := fun _ => [];
       elapsed := fun _ => "0ms" |} eq_refl))).
Defined.

Section Gate.

Variable w : World.

Hypothesis no_help : includes (argv w) "--help" = false.
Hypothesis no_h : includes (argv w) "-h" = false.

Lemma NodeSpawn_blocked_without_tool :
  onSearchPath w = false ->
  NodeSpawn.run w
  = {| exitStatus := Some 1%Z;
       trace :=
         mkProc
           [ "dotenvx-interactive-cli";
             "❌ dotenvx is not installed on your system.";
             installHint ]
           [ "❌ An error occurred: Error: dotenvx not installed" ]
           []
           [ lookup w ] |}.
Proof.
  intros T.
  unfold NodeSpawn.run, runProcess, NodeSpawn.program, tryCatch, NodeSpawn.main, bind.
  rewrite no_help, no_h. cbn [orb].
  unfold checkDotenvxInstallation. rewrite T.
  destruct (hasEntry w ".env.keys") eqn:K.
  - cbn. rewrite checkEnvKeysFile_present by exact K. reflexivity.
  - cbn. rewrite checkEnvKeysFile_absent by exact K. reflexivity.
Qed.

Lemma NodeSpawn_blocked_without_key :
  onSearchPath w = true ->
  hasEntry w ".env.keys" = false ->
  NodeSpawn.run w
  = {| exitStatus := Some 1%Z;
       trace :=
         mkProc
           [ "dotenvx-interactive-cli"; keyFileHint ]
           [ "❌ An error occurred: Error: .env.keys file not found" ]
           []
           [ lookup w ] |}.
Proof.
  intros T K.
  unfold NodeSpawn.run, runProcess, NodeSpawn.program, tryCatch, NodeSpawn.main, bind.
  rewrite no_help, no_h. cbn [orb].
  unfold checkDotenvxInstallation. rewrite T.
  cbn. rewrite checkEnvKeysFile_absent by exact K. reflexivity.
Qed.

End Gate.

(** X2: in src/index.ts and in part_001, a run without help flag that
    finds [dotenvx] missing from the search path, or finds it but no
    [.env.keys] entry, ends with status 1 after printing the matching
    remediation (install hint first); no prompt is shown and nothing but the
    lookup is started. *)
Theorem prerequisite_gate (w : World) :
  includes (argv w) "--help" = false ->
  includes (argv w) "-h" = false ->
  onSearchPath w && hasEntry w ".env.keys" = false ->
  (exitStatus (Zx.run w) = Some 1%Z
   /\ In (if onSearchPath w then keyFileHint else installHint)
         (stdoutLog (trace (Zx.run w)))
   /\ prompts (trace (Zx.run w)) = []
   /\ spawned (trace (Zx.run w)) = [lookup w])
  /\ (exitStatus (NodeSpawn.run w) = Some 1%Z
      /\ In (if onSearchPath w then keyFileHint else installHint)
            (stdoutLog (trace (NodeSpawn.run w)))
      /\ prompts (trace (NodeSpawn.run w)) = []
      /\ spawned (trace (NodeSpawn.run w)) = [lookup w]).
Proof.
  intros H1 H2 G. destruct (onSearchPath w) eqn:T.
  - cbn [andb] in G.
    rewrite (Zx_blocked_without_key w H1 H2 T G),
      (NodeSpawn_blocked_without_key w H1 H2 T G).
    cbn [exitStatus trace stdoutLog prompts spawned].
    repeat split; cbn; tauto.
  - rewrite (Zx_blocked_without_tool w H1 H2 T),
      (NodeSpawn_blocked_without_tool w H1 H2 T).
    cbn [exitStatus trace stdoutLog prompts spawned].
    repeat split; cbn; tauto.
Qed.

Lemma prerequisite_gate_sample :
  exitStatus (NodeSpawn.run keyFileMissing) = Some 1%Z
  /\ In keyFileHint (stdoutLog (trace (NodeSpawn.run keyFileMissing))).
Proof.
  destruct (prerequisite_gate keyFileMissing eq_refl eq_refl eq_refl)
    as [_ [E [H _]]].
  split; [exact E | exact H].
Defined.

(** X3: in src/index.ts and in part_001, whatever the operator and the
    directory, a subprocess other than the lookup of [dotenvx] is started
    only in a run without help flag in which [dotenvx] was found on the
    search path and the working directory has a [.env.keys] entry. *)
Theorem commands_need_prerequisites (w : World) (i : Invocation) :
  i <> lookup w ->
  In i (spawned (trace (Zx.run w))) \/ In i (spawned (trace (NodeSpawn.run w))) ->
  includes (argv w) "--help" || includes (argv w) "-h" = false
  /\ onSearchPath w = true
  /\ hasEntry w ".env.keys" = true.
Proof.
  intros N S.
  destruct (includes (argv w) "--help" || includes (argv w) "-h") eqn:H.
  { exfalso. destruct (Zx_help w H) as [_ [_ Z]].
    destruct (NodeSpawn_help w H) as [_ [_ S']].
    rewrite Z, S' in S. now destruct S. }
  apply orb_false_iff in H as [H1 H2].
  destruct (onSearchPath w) eqn:T.
  - destruct (hasEntry w ".env.keys") eqn:K; [repeat split|].
    exfalso.
    rewrite (Zx_blocked_without_key w H1 H2 T K),
      (NodeSpawn_blocked_without_key w H1 H2 T K) in S.
    cbn in S. intuition congruence.
  - exfalso.
    rewrite (Zx_blocked_without_tool w H1 H2 T),
      (NodeSpawn_blocked_without_tool w H1 H2 T) in S.
    cbn in S. intuition congruence.
Qed.

Lemma commands_need_prerequisites_sample :
  onSearchPath (childFails "encrypt") = true
  /\ hasEntry (childFails "encrypt") ".env.keys" = true.
Proof.
  refine (proj2 (commands_need_prerequisites (childFails "encrypt")
            (Spawn "dotenvx" ["encrypt"; "-f"; ".env"; ".env.local"] true)
            _ _)).
  - discriminate.
  - right. vm_compute. tauto.
Defined.

(** ** The subprocess runner, in full *)

Section Tee.

Implicit Types (events : list ChildEvent) (p : Proc).

Lemma closeCode_closes events :
  closeCode events = None <-> closes events = false.
Proof.
  induction events as [|[d|d|c] events IH]; cbn; try tauto.
  split; discriminate.
Qed.

Lemma untilClose_open events : closes (untilClose events) = false.
Proof. induction events as [|[d|d|c] events IH]; cbn; trivial. Qed.

Lemma closeCode_split events code :
  closeCode events = Some code ->
  exists after, events = (untilClose events ++ Close code :: after)%list.
Proof.
  induction events as [|[d|d|c] events IH]; cbn; intros H; try discriminate.
  - destruct (IH H) as [after E]. exists after. now rewrite <- E.
  - destruct (IH H) as [after E]. exists after. now rewrite <- E.
  - injection H as ->. now exists events.
Qed.

(** What the listeners of part_001 leave behind, whatever the trace. *)
Lemma listen_trace events :
  forall p l,
    snd (fold_left NodeSpawn.dispatch events (l, p))
    = mkProc (stdoutLog p ++ stdoutChunks events)
             (stderrLog p ++ stderrChunks events)
             (prompts p) (spawned p).
Proof.
  induction events as [|ev events IH]; intros p l.
  - destruct p. cbn. now rewrite !app_nil_r.
  - destruct ev as [d|d|c];
      cbn [fold_left NodeSpawn.dispatch NodeSpawn.onStdoutData
           NodeSpawn.onStderrData NodeSpawn.onClose stdoutChunks stderrChunks];
      rewrite IH; cbn; now rewrite <- ?app_assoc.
Qed.

Lemma NodeSpawn_executeCommand_eq (w : World) cmd args p :
  NodeSpawn.executeCommand w cmd args p
  = (match closeCode (child w (Spawn cmd args true)) with
     | Some code =>
         Ret {| stdout := stdoutOf (untilClose (child w (Spawn cmd args true)));
                stderr := stderrOf (untilClose (child w (Spawn cmd args true)));
                exitCode := (code ?? 0)%Z |}
     | None => Pending
     end,
     mkProc (stdoutLog p ++ stdoutChunks (child w (Spawn cmd args true)))
            (stderrLog p ++ stderrChunks (child w (Spawn cmd args true)))
            (prompts p)
            (spawned p ++ [Spawn cmd args true])).
Proof.
  assert (F := executeCommand_settles w cmd args p).
  unfold NodeSpawn.executeCommand in *. unfold NodeSpawn.listen in *.
  assert (T := listen_trace (child w (Spawn cmd args true))
                 (start (Spawn cmd args true) p) NodeSpawn.listening).
  destruct (fold_left _ _ _) as [l p'] eqn:E. cbn [snd fst] in *. subst p'.
  assert (R : match NodeSpawn.settled l with
              | Some r => Ret r
              | None => @Pending ExecResult
              end
              = match closeCode (child w (Spawn cmd args true)) with
                | Some code =>
                    Ret {| stdout := stdoutOf (untilClose (child w (Spawn cmd args true)));
                           stderr := stderrOf (untilClose (child w (Spawn cmd args true)));
                           exitCode := (code ?? 0)%Z |}
                | None => Pending
                end).
  { destruct (closeCode (child w (Spawn cmd args true))) as [code|] eqn:C.
    - destruct (closeCode_split _ _ C) as [after S].
      assert (L := listen_closed (untilClose (child w (Spawn cmd args true)))
                     code after (start (Spawn cmd args true) p)
                     (untilClose_open _)).
      unfold NodeSpawn.listen in L. rewrite <- S, E in L. cbn [fst] in L.
      now rewrite L.
    - apply closeCode_closes in C.
      assert (L := listen_open _ C NodeSpawn.listening
                     (start (Spawn cmd args true) p) eq_refl).
      rewrite E in L. cbn [fst] in L. now rewrite L. }
  destruct (NodeSpawn.settled l); now rewrite <- R.
Qed.

Lemma Zx_collect_eq events :
  forall out err,
    Zx.collect events out err
    = match closeCode events with
      | Some code =>
          Some (out ++ stdoutOf (untilClose events),
                err ++ stderrOf (untilClose events), code)
      | None => None
      end.
Proof.
  induction events as [|[d|d|c] events IH]; intros out err;
    cbn [Zx.collect closeCode untilClose stdoutOf stderrOf].
  - reflexivity.
  - rewrite IH. destruct (closeCode events); now rewrite ?append_assoc.
  - rewrite IH. destruct (closeCode events); now rewrite ?append_assoc.
  - now rewrite !append_empty_r.
Qed.

Lemma Zx_executeCommand_eq (w : World) cmd args p :
  Zx.executeCommand w cmd args p
  = (match closeCode (child w (ZxCall (cmd :: args))) with
     | Some code =>
         Ret {| stdout := stdoutOf (untilClose (child w (ZxCall (cmd :: args))));
                stderr := stderrOf (untilClose (child w (ZxCall (cmd :: args))));
                exitCode := (code ?? 0)%Z |}
     | None => Pending
     end,
     start (ZxCall (cmd :: args)) p).
Proof.
  unfold Zx.executeCommand, bind, Zx.dollarNothrow. rewrite Zx_collect_eq.
  now destruct (closeCode _).
Qed.



End Tee.



(** ** File selection, further *)

Lemma checkboxLoop_incl (q : Checkbox) (script : list Attempt)
      (selected : list string) :
  checkboxLoop q script = Ret selected ->
  incl selected (selectable (choices q)).
Proof.
  induction script as [|[marks|e] script IH]; cbn [checkboxLoop];
    [discriminate | | discriminate].
  destruct (validate q _); [|exact IH].
  intros H. injection H as <-. intros x. apply checked_incl.
Qed.

Lemma chosen_incl files action script selected :
  checkboxLoop (selectQuestion files action) script = Ret selected ->
  incl (chosen files selected) files.
Proof.
  intros L. unfold chosen. destruct (includes selected "ALL") eqn:I.
  - apply incl_refl.
  - intros x Hx. assert (A := checkboxLoop_incl _ _ _ L x Hx).
    rewrite selectable_question in A. destruct A as [<-|A]; [|exact A].
    apply includes_In in Hx. congruence.
Qed.

Lemma chosen_nonempty files action script selected :
  files <> [] ->
  checkboxLoop (selectQuestion files action) script = Ret selected ->
  chosen files selected <> [].
Proof.
  intros N L. unfold chosen. destruct (includes selected "ALL"); [exact N|].
  exact (checkboxLoop_nonempty _ _ _ _ L).
Qed.

Lemma selectFiles_confirmed (w : World) files action p selected :
  files <> [] ->
  checkboxLoop (selectQuestion files action) (checkboxOperator w) = Ret selected ->
  selectFiles w files action p
  = (Ret (chosen files selected),
     showPrompt (message (selectQuestion files action)) p).
Proof.
  intros N L. unfold selectFiles, chosen.
  destruct files as [|f files]; [contradiction|].
  cbn [List.length Nat.eqb]. unfold bind, promptCheckbox. rewrite L.
  now destruct (includes selected "ALL").
Qed.

Lemma checkboxLoop_no_exit (q : Checkbox) (script : list Attempt) (c : Z) :
  checkboxLoop q script <> Exit c.
Proof.
  induction script as [|[marks|e] script IH]; cbn [checkboxLoop]; try discriminate.
  destruct (validate q _); [discriminate | exact IH].
Qed.

Lemma selectFiles_eq (w : World) files action p :
  files <> [] ->
  selectFiles w files action p
  = (match checkboxLoop (selectQuestion files action) (checkboxOperator w) with
     | Ret selected => Ret (chosen files selected)
     | Throw e => Throw e
     | Exit c => Exit c
     | Pending => Pending
     end,
     showPrompt (message (selectQuestion files action)) p).
Proof.
  intros N. unfold selectFiles, chosen.
  destruct files as [|f files]; [contradiction|].
  cbn [List.length Nat.eqb]. unfold bind, promptCheckbox.
  destruct (checkboxLoop _ _) as [sel| | |]; try reflexivity.
  now destruct (includes sel "ALL").
Qed.

(** X5: whatever the operator does at the prompt, a selection that
    [selectFiles] returns holds only files of the candidate list it was
    given, and on a non-empty candidate list it is never empty (the prompt
    asks again after an empty confirmation). *)
Theorem selectFiles_sound (w : World) (files : list string) (action : string)
        (p : Proc) (selected : list string) :
  fst (selectFiles w files action p) = Ret selected ->
  incl selected files /\ (files <> [] -> selected <> []).
Proof.
  intros H. destruct files as [|f files].
  - cbn in H. injection H as <-. split; [apply incl_refl | tauto].
  - unfold selectFiles in H. cbn [List.length Nat.eqb] in H.
    unfold bind, promptCheckbox in H.
    destruct (checkboxLoop _ _) as [sel| | |] eqn:L; try discriminate.
    assert (E : selected = chosen (f :: files) sel).
    { unfold chosen. destruct (includes sel "ALL"); cbn in H; congruence. }
    subst selected. split.
    + exact (chosen_incl _ _ _ _ L).
    + intros N. exact (chosen_nonempty _ _ _ _ N L).
Qed.

Lemma selectFiles_sound_sample :
  incl [".env.local"] [".env"; ".env.local"].
Proof.
  exact (proj1 (selectFiles_sound
    (world [] None NoReply
       [Confirm []; Confirm [false; false; false]; Confirm [false; false; true]] [])
    [".env"; ".env.local"] "decrypt" startProc [".env.local"] eq_refl)).
Defined.

(** X6: over the files [findEnvFiles] found, a confirmation that leaves
    the select-all row unmarked returns exactly the marked files, in
    directory order: no discovered name can stand for the select-all
    value. *)
Theorem selectFiles_marked_files (w : World) (dirEntries : Directory)
        (action : string) (p : Proc) (marks : list bool) (rest : list Attempt) :
  checked (findEnvFiles dirEntries) marks <> [] ->
  checkboxOperator w = Confirm (false :: marks) :: rest ->
  fst (selectFiles w (findEnvFiles dirEntries) action p)
  = Ret (checked (findEnvFiles dirEntries) marks).
Proof.
  intros C O. apply (selectFiles_marked_only w _ action p marks rest); trivial.
  intros A. destruct (findEnvFiles_entry _ _ A) as [e [_ [E K]]].
  apply kept_prefix in K. rewrite E in K. discriminate K.
Qed.

Lemma selectFiles_marked_files_sample :
  fst (selectFiles (world sampleDir None NoReply [Confirm [false; false; true; true]] [])
         (findEnvFiles sampleDir) "encrypt" startProc)
  = Ret [".env.local"; ".environment"].
Proof.
  apply (selectFiles_marked_files
           (world sampleDir None NoReply [Confirm [false; false; true; true]] [])
           sampleDir "encrypt" startProc [false; true; true] []);
    [discriminate | reflexivity].
Defined.

(** ** Dispatch, past the prerequisite check *)

Section Dispatch.

Variable w : World.

Hypothesis no_help : includes (argv w) "--help" = false.
Hypothesis no_h : includes (argv w) "-h" = false.
Hypothesis tool : onSearchPath w = true.
Hypothesis key : hasEntry w ".env.keys" = true.

Ltac enter_Zx :=
  unfold Zx.run, runProcess, Zx.program, tryCatch, Zx.main, bind;
  rewrite no_help, no_h; cbn [orb];
  unfold checkDotenvxInstallation; rewrite tool;
  cbn -[findEnvFiles selectFiles Zx.executeCommand];
  rewrite checkEnvKeysFile_present by exact key;
  unfold promptList.

Ltac enter_NodeSpawn :=
  unfold NodeSpawn.run, runProcess, NodeSpawn.program, tryCatch, NodeSpawn.main, bind;
  rewrite no_help, no_h; cbn [orb];
  unfold checkDotenvxInstallation; rewrite tool;
  cbn -[findEnvFiles selectFiles NodeSpawn.executeCommand];
  rewrite checkEnvKeysFile_present by exact key;
  unfold promptList.

(** The part_001 run in which Decrypt is picked and a selection confirmed. *)
Lemma NodeSpawn_decrypt_outcome f fs selected :
  menuOperator w = Answer "decrypt" ->
  findEnvFiles (cwd w) = f :: fs ->
  checkboxLoop (selectQuestion (f :: fs) "decrypt") (checkboxOperator w)
  = Ret selected ->
  NodeSpawn.run w
  = let spawn :=
      Spawn "dotenvx" ("decrypt" :: "-f" :: chosen (f :: fs) selected) true in
    {| exitStatus :=
         match closeCode (child w spawn) with
         | Some _ => Some 0%Z
         | None => None
         end;
       trace :=
         mkProc
           ((stdoutLog (NodeSpawn.atMenu w) ++ [EmptyString])
              ++ stdoutChunks (child w spawn)
              ++ match closeCode (child w spawn) with
                 | Some code =>
                     if Z.eqb (code ?? 0)%Z 0
                     then ["✓ Files decrypted successfully"] else []
                 | None => []
                 end)
           (stderrChunks (child w spawn)
              ++ match closeCode (child w spawn) with
                 | Some code =>
                     if Z.eqb (code ?? 0)%Z 0 then []
                     else ["❌ Failed to decrypt files: "
                             ++ stderrOf (untilClose (child w spawn))]
                 | None => []
                 end)
           (prompts (NodeSpawn.atMenu w)
              ++ [message (selectQuestion (f :: fs) "decrypt")])
           (spawned (NodeSpawn.atMenu w) ++ [spawn]) |}.
Proof.
  intros A F L. enter_NodeSpawn. rewrite A.
  cbn -[findEnvFiles selectFiles NodeSpawn.executeCommand]. rewrite F.
  unfold tryCatch. cbn beta.
  rewrite (selectFiles_confirmed w (f :: fs) "decrypt" _ selected)
    by (discriminate || exact L).
  destruct (chosen (f :: fs) selected) as [|x sel] eqn:C.
  { exfalso.
    apply (chosen_nonempty (f :: fs) "decrypt" (checkboxOperator w) selected);
      [discriminate | exact L | exact C]. }
  cbn -[NodeSpawn.executeCommand].
  rewrite NodeSpawn_executeCommand_eq.
  destruct (closeCode _) as [code|]; [|cbn; now rewrite !app_nil_r].
  cbn. destruct (Z.eqb (code ?? 0)%Z 0); cbn;
    rewrite ?app_nil_r, <- ?app_assoc; reflexivity.
Qed.

(** Where a part_001 run that passed the prerequisite check can end, and
    what it can have started. *)
Lemma NodeSpawn_dispatch_cases :
  (exitStatus (NodeSpawn.run w) = None
   \/ exitStatus (NodeSpawn.run w) = Some 0%Z
   \/ exitStatus (NodeSpawn.run w) = Some 1%Z)
  /\ (spawned (trace (NodeSpawn.run w)) = [lookup w]
      \/ spawned (trace (NodeSpawn.run w))
         = [lookup w; Spawn "dotenvx" ["ext"; "precommit"; "--install"] true]
      \/ exists selected,
           selected <> []
           /\ incl selected (findEnvFiles (cwd w))
           /\ (spawned (trace (NodeSpawn.run w))
               = [lookup w; Spawn "dotenvx" ("encrypt" :: "-f" :: selected) true]
               \/ spawned (trace (NodeSpawn.run w))
                  = [lookup w; Spawn "dotenvx" ("decrypt" :: "-f" :: selected) true])).
Proof.
  enter_NodeSpawn.
  destruct (menuOperator w) as [a|e|];
    [| cbn; destruct (NodeSpawn.promptExited e); cbn; tauto | cbn; tauto].
  cbn -[findEnvFiles selectFiles NodeSpawn.executeCommand String.eqb].
  destruct (String.eqb a "encrypt") eqn:E1;
    [|destruct (String.eqb a "decrypt") eqn:E2;
      [|destruct (String.eqb a "precommit") eqn:E3;
        [|destruct (String.eqb a "exit"); cbn; tauto]]].
  - unfold tryCatch. cbn beta.
    destruct (findEnvFiles (cwd w)) as [|f fs] eqn:F; [cbn; tauto|].
    rewrite selectFiles_eq by discriminate.
    destruct (checkboxLoop _ _) as [sel|e|c|] eqn:L;
      [| cbn; destruct (NodeSpawn.promptExited e); cbn; tauto
       | now destruct (checkboxLoop_no_exit _ _ _ L)
       | cbn; tauto].
    assert (I := chosen_incl _ _ _ _ L).
    assert (N := chosen_nonempty (f :: fs) _ _ _ ltac:(discriminate) L).
    destruct (chosen (f :: fs) sel) as [|x xs]; [contradiction|].
    cbn -[NodeSpawn.executeCommand]. rewrite NodeSpawn_executeCommand_eq.
    destruct (closeCode _); cbn; (split; [tauto|]); right; right;
      exists (x :: xs); repeat split; trivial; now left.
  - unfold tryCatch. cbn beta.
    destruct (findEnvFiles (cwd w)) as [|f fs] eqn:F; [cbn; tauto|].
    rewrite selectFiles_eq by discriminate.
    destruct (checkboxLoop _ _) as [sel|e|c|] eqn:L;
      [| cbn; destruct (NodeSpawn.promptExited e); cbn; tauto
       | now destruct (checkboxLoop_no_exit _ _ _ L)
       | cbn; tauto].
    assert (I := chosen_incl _ _ _ _ L).
    assert (N := chosen_nonempty (f :: fs) _ _ _ ltac:(discriminate) L).
    destruct (chosen (f :: fs) sel) as [|x xs]; [contradiction|].
    cbn -[NodeSpawn.executeCommand]. rewrite NodeSpawn_executeCommand_eq.
    destruct (closeCode _) as [code|]; cbn;
      [destruct (Z.eqb (code ?? 0)%Z 0); cbn|];
      (split; [tauto|]); right; right;
      exists (x :: xs); repeat split; trivial; now right.
  - unfold tryCatch. cbn beta. rewrite NodeSpawn_executeCommand_eq.
    destruct (closeCode _); cbn; tauto.
Qed.

(** The same for src/index.ts. *)
Lemma Zx_dispatch_cases :
  (exitStatus (Zx.run w) = None
   \/ exitStatus (Zx.run w) = Some 0%Z
   \/ exitStatus (Zx.run w) = Some 1%Z)
  /\ (spawned (trace (Zx.run w)) = [lookup w]
      \/ spawned (trace (Zx.run w))
         = [lookup w; ZxCall ["dotenvx"; "ext"; "precommit"; "--install"]]
      \/ exists selected,
           selected <> []
           /\ incl selected (findEnvFiles (cwd w))
           /\ (spawned (trace (Zx.run w))
               = [lookup w; ZxCall ("dotenvx" :: "encrypt" :: "-f" :: selected)]
               \/ spawned (trace (Zx.run w))
                  = [lookup w; ZxCall ("dotenvx" :: "decrypt" :: "-f" :: selected)])).
Proof.
  enter_Zx.
  destruct (menuOperator w) as [a|e|]; [| cbn; tauto | cbn; tauto].
  cbn -[findEnvFiles selectFiles Zx.executeCommand String.eqb].
  destruct (String.eqb a "encrypt") eqn:E1;
    [|destruct (String.eqb a "decrypt") eqn:E2;
      [|destruct (String.eqb a "precommit") eqn:E3;
        [|destruct (String.eqb a "exit"); cbn; tauto]]].
  - unfold tryCatch. cbn beta.
    destruct (findEnvFiles (cwd w)) as [|f fs] eqn:F; [cbn; tauto|].
    rewrite selectFiles_eq by discriminate.
    destruct (checkboxLoop _ _) as [sel|e|c|] eqn:L;
      [| cbn; tauto
       | now destruct (checkboxLoop_no_exit _ _ _ L)
       | cbn; tauto].
    assert (I := chosen_incl _ _ _ _ L).
    assert (N := chosen_nonempty (f :: fs) _ _ _ ltac:(discriminate) L).
    destruct (chosen (f :: fs) sel) as [|x xs]; [contradiction|].
    cbn -[Zx.executeCommand]. rewrite Zx_executeCommand_eq.
    destruct (closeCode _); cbn; (split; [tauto|]); right; right;
      exists (x :: xs); repeat split; trivial; now left.
  - unfold tryCatch. cbn beta.
    destruct (findEnvFiles (cwd w)) as [|f fs] eqn:F; [cbn; tauto|].
    rewrite selectFiles_eq by discriminate.
    destruct (checkboxLoop _ _) as [sel|e|c|] eqn:L;
      [| cbn; tauto
       | now destruct (checkboxLoop_no_exit _ _ _ L)
       | cbn; tauto].
    assert (I := chosen_incl _ _ _ _ L).
    assert (N := chosen_nonempty (f :: fs) _ _ _ ltac:(discriminate) L).
    destruct (chosen (f :: fs) sel) as [|x xs]; [contradiction|].
    cbn -[Zx.executeCommand]. rewrite Zx_executeCommand_eq.
    destruct (closeCode _); cbn; (split; [tauto|]); right; right;
      exists (x :: xs); repeat split; trivial; now right.
  - unfold tryCatch. cbn beta. rewrite Zx_executeCommand_eq.
    destruct (closeCode _); cbn; tauto.
Qed.

(** Nothing to select from (part_001). *)
Lemma NodeSpawn_nothing_found action :
  action = "encrypt" \/ action = "decrypt" ->
  menuOperator w = Answer action ->
  findEnvFiles (cwd w) = [] ->
  NodeSpawn.run w
  = {| exitStatus := Some 0%Z;
       trace :=
         mkProc
           (stdoutLog (NodeSpawn.atMenu w)
              ++ [ EmptyString;
                   "No .env files found in the current directory.";
                   if String.eqb action "encrypt"
                   then "No files selected for encryption"
                   else "No files selected for decryption" ])
           []
           (prompts (NodeSpawn.atMenu w))
           (spawned (NodeSpawn.atMenu w)) |}.
Proof.
  intros [-> | ->] A F; enter_NodeSpawn; rewrite A;
    cbn -[findEnvFiles selectFiles NodeSpawn.executeCommand]; now rewrite F.
Qed.

(** The menu prompt is rejected (part_001). *)
Lemma NodeSpawn_menu_rejected e :
  menuOperator w = Rejected e ->
  NodeSpawn.run w
  = {| exitStatus := Some (if NodeSpawn.promptExited e then 0 else 1)%Z;
       trace :=
         mkProc
           (stdoutLog (NodeSpawn.atMenu w)
              ++ if NodeSpawn.promptExited e
                 then ["👋 Prompt exited. Until next time!"] else [])
           (if NodeSpawn.promptExited e then []
            else ["❌ An error occurred: " ++ showError e])
           (prompts (NodeSpawn.atMenu w))
           (spawned (NodeSpawn.atMenu w)) |}.
Proof.
  intros A. enter_NodeSpawn. rewrite A. cbn.
  now destruct (NodeSpawn.promptExited e).
Qed.

(** Install precommit hook (part_001). *)
Lemma NodeSpawn_precommit_outcome :
  menuOperator w = Answer "precommit" ->
  NodeSpawn.run w
  = let spawn := Spawn "dotenvx" ["ext"; "precommit"; "--install"] true in
    {| exitStatus :=
         match closeCode (child w spawn) with
         | Some _ => Some 0%Z
         | None => None
         end;
       trace :=
         mkProc
           ((stdoutLog (NodeSpawn.atMenu w) ++ [EmptyString])
              ++ stdoutChunks (child w spawn)
              ++ match closeCode (child w spawn) with
                 | Some _ => ["👍 Precommit hook installed successfully"]
                 | None => []
                 end)
           (stderrChunks (child w spawn))
           (prompts (NodeSpawn.atMenu w))
           (spawned (NodeSpawn.atMenu w) ++ [spawn]) |}.
Proof.
  intros A. enter_NodeSpawn. rewrite A.
  cbn -[NodeSpawn.executeCommand]. unfold tryCatch. cbn beta.
  rewrite NodeSpawn_executeCommand_eq.
  destruct (closeCode _); cbn; rewrite ?app_nil_r, <- ?app_assoc; reflexivity.
Qed.

End Dispatch.

(** X7: a run of src/index.ts or of part_001 that ends, ends with status
    0 or 1, whatever the arguments, the directory, the operator and the
    child do. *)
Theorem exit_status_0_or_1 (w : World) :
  (exitStatus (Zx.run w) = None
   \/ exitStatus (Zx.run w) = Some 0%Z
   \/ exitStatus (Zx.run w) = Some 1%Z)
  /\ (exitStatus (NodeSpawn.run w) = None
      \/ exitStatus (NodeSpawn.run w) = Some 0%Z
      \/ exitStatus (NodeSpawn.run w) = Some 1%Z).
Proof.
  destruct (includes (argv w) "--help" || includes (argv w) "-h") eqn:H.
  { destruct (Zx_help w H) as [-> _]. destruct (NodeSpawn_help w H) as [-> _].
    tauto. }
  apply orb_false_iff in H as [H1 H2].
  destruct (onSearchPath w) eqn:T.
  - destruct (hasEntry w ".env.keys") eqn:K.
    + split.
      * exact (proj1 (Zx_dispatch_cases w H1 H2 T K)).
      * exact (proj1 (NodeSpawn_dispatch_cases w H1 H2 T K)).
    + rewrite (Zx_blocked_without_key w H1 H2 T K),
        (NodeSpawn_blocked_without_key w H1 H2 T K). cbn. tauto.
  - rewrite (Zx_blocked_without_tool w H1 H2 T),
      (NodeSpawn_blocked_without_tool w H1 H2 T). cbn. tauto.
Qed.

(** X8: a run of part_001 starts, besides the lookup, at most one
    subprocess, and that one is [dotenvx], through a shell, with either
    [ext precommit --install], or [encrypt -f] or [decrypt -f] followed by a
    non-empty list of files that [findEnvFiles] found in the working
    directory. *)
Theorem one_dotenvx_command_per_run (w : World) :
  spawned (trace (NodeSpawn.run w)) = []
  \/ spawned (trace (NodeSpawn.run w)) = [lookup w]
  \/ spawned (trace (NodeSpawn.run w))
     = [lookup w; Spawn "dotenvx" ["ext"; "precommit"; "--install"] true]
  \/ exists selected,
       selected <> []
       /\ incl selected (findEnvFiles (cwd w))
       /\ (spawned (trace (NodeSpawn.run w))
           = [lookup w; Spawn "dotenvx" ("encrypt" :: "-f" :: selected) true]
           \/ spawned (trace (NodeSpawn.run w))
              = [lookup w; Spawn "dotenvx" ("decrypt" :: "-f" :: selected) true]).
Proof.
  destruct (includes (argv w) "--help" || includes (argv w) "-h") eqn:H.
  { left. exact (proj2 (proj2 (NodeSpawn_help w H))). }
  right. apply orb_false_iff in H as [H1 H2].
  destruct (onSearchPath w) eqn:T.
  - destruct (hasEntry w ".env.keys") eqn:K.
    + exact (proj2 (NodeSpawn_dispatch_cases w H1 H2 T K)).
    + left. now rewrite (NodeSpawn_blocked_without_key w H1 H2 T K).
  - left. now rewrite (NodeSpawn_blocked_without_tool w H1 H2 T).
Qed.


(** X10: in part_001, Decrypt with a confirmed selection runs [dotenvx
    decrypt -f] on it and, once the child has closed, ends with status 0;
    after the child's own output it prints the success message when the
    child's status is 0 or missing, and otherwise the failure line with
    the standard error text captured up to the close, and no success
    message. *)
Theorem decrypt_reports_status (w : World) (f : string) (fs selected : list string)
        (code : option Z) :
  includes (argv w) "--help" = false ->
  includes (argv w) "-h" = false ->
  onSearchPath w = true ->
  hasEntry w ".env.keys" = true ->
  menuOperator w = Answer "decrypt" ->
  findEnvFiles (cwd w) = f :: fs ->
  checkboxLoop (selectQuestion (f :: fs) "decrypt") (checkboxOperator w)
  = Ret selected ->
  closeCode
    (child w (Spawn "dotenvx" ("decrypt" :: "-f" :: chosen (f :: fs) selected) true))
  = Some code ->
  exitStatus (NodeSpawn.run w) = Some 0%Z
  /\ spawned (trace (NodeSpawn.run w))
     = [lookup w;
        Spawn "dotenvx" ("decrypt" :: "-f" :: chosen (f :: fs) selected) true]
  /\ stdoutLog (trace (NodeSpawn.run w))
     = ((stdoutLog (NodeSpawn.atMenu w) ++ [EmptyString])
          ++ stdoutChunks
               (child w (Spawn "dotenvx"
                           ("decrypt" :: "-f" :: chosen (f :: fs) selected) true))
          ++ (if Z.eqb (code ?? 0)%Z 0
              then ["✓ Files decrypted successfully"] else []))%list
  /\ stderrLog (trace (NodeSpawn.run w))
     = (stderrChunks
          (child w (Spawn "dotenvx"
                      ("decrypt" :: "-f" :: chosen (f :: fs) selected) true))
          ++ (if Z.eqb (code ?? 0)%Z 0 then []
              else [("❌ Failed to decrypt files: "
                      ++ stderrOf
                           (untilClose
                              (child w (Spawn "dotenvx"
                                 ("decrypt" :: "-f" :: chosen (f :: fs) selected)
                                 true))))%string]))%list.
Proof.
  intros H1 H2 T K A F L C.
  rewrite (NodeSpawn_decrypt_outcome w H1 H2 T K f fs selected A F L).
  cbn zeta. rewrite C. cbn [exitStatus trace stdoutLog stderrLog spawned].
  repeat split.
Qed.

Lemma decrypt_reports_status_sample :
  stderrLog (trace (NodeSpawn.run (childFails "decrypt")))
  = ["boom"; "❌ Failed to decrypt files: boom"].
Proof.
  exact (proj2 (proj2 (proj2
    (decrypt_reports_status (childFails "decrypt") ".env" [".env.local"]
       ["ALL"] (Some 2%Z)
       eq_refl eq_refl eq_refl eq_refl eq_refl eq_refl eq_refl eq_refl)))).
Defined.

(** X11: in part_001, Encrypt or Decrypt in a directory where
    [findEnvFiles] finds nothing says so, shows no selection prompt, starts
    no [dotenvx] command and ends with status 0. *)
Theorem nothing_to_select (w : World) (action : string) :
  includes (argv w) "--help" = false ->
  includes (argv w) "-h" = false ->
  onSearchPath w = true ->
  hasEntry w ".env.keys" = true ->
  action = "encrypt" \/ action = "decrypt" ->
  menuOperator w = Answer action ->
  findEnvFiles (cwd w) = [] ->
  exitStatus (NodeSpawn.run w) = Some 0%Z
  /\ In "No .env files found in the current directory."
        (stdoutLog (trace (NodeSpawn.run w)))
  /\ stderrLog (trace (NodeSpawn.run w)) = []
  /\ prompts (trace (NodeSpawn.run w)) = ["What would you like to do?"]
  /\ spawned (trace (NodeSpawn.run w)) = [lookup w].
Proof.
  intros H1 H2 T K O A F.
  rewrite (NodeSpawn_nothing_found w H1 H2 T K action O A F).
  cbn [exitStatus trace stdoutLog stderrLog prompts spawned NodeSpawn.atMenu].
  repeat split. cbn. tauto.
Qed.

Lemma nothing_to_select_sample :
  exitStatus
    (NodeSpawn.run
       (world keyFileOnly (Some 0%Z) (Answer "decrypt") [Abort ExitPromptError]
          [Close (Some 0%Z)]))
  = Some 0%Z.
Proof.
  exact (proj1 (nothing_to_select
    (world keyFileOnly (Some 0%Z) (Answer "decrypt") [Abort ExitPromptError]
       [Close (Some 0%Z)])
    "decrypt" eq_refl eq_refl eq_refl eq_refl (or_intror eq_refl) eq_refl eq_refl)).
Defined.

(** X12: in part_001, a menu prompt that rejects ends the run before any
    [dotenvx] command: with the farewell and status 0 when the error is an
    [ExitPromptError] or carries [isTtyError], and with the error report and
    status 1 for any other error. *)
Theorem menu_rejection (w : World) (e : JsError) :
  includes (argv w) "--help" = false ->
  includes (argv w) "-h" = false ->
  onSearchPath w = true ->
  hasEntry w ".env.keys" = true ->
  menuOperator w = Rejected e ->
  spawned (trace (NodeSpawn.run w)) = [lookup w]
  /\ (NodeSpawn.promptExited e = true ->
      exitStatus (NodeSpawn.run w) = Some 0%Z
      /\ In "👋 Prompt exited. Until next time!"
            (stdoutLog (trace (NodeSpawn.run w)))
      /\ stderrLog (trace (NodeSpawn.run w)) = [])
  /\ (NodeSpawn.promptExited e = false ->
      exitStatus (NodeSpawn.run w) = Some 1%Z
      /\ stderrLog (trace (NodeSpawn.run w))
         = ["❌ An error occurred: " ++ showError e]).
Proof.
  intros H1 H2 T K A. rewrite (NodeSpawn_menu_rejected w H1 H2 T K e A).
  cbn [exitStatus trace stdoutLog stderrLog spawned NodeSpawn.atMenu].
  split; [reflexivity|]. split; intros ->; repeat split.
  apply in_or_app. right. now left.
Qed.

Lemma menu_rejection_sample :
  exitStatus
    (NodeSpawn.run
       (world prepared (Some 0%Z)
          (Rejected {| errName := "Error"; errMessage := "no tty";
                       isTtyError := true |}) [] []))
  = Some 0%Z.
Proof.
  exact (proj1 (proj1 (proj2 (menu_rejection
    (world prepared (Some 0%Z)
       (Rejected {| errName := "Error"; errMessage := "no tty";
                    isTtyError := true |}) [] [])
    _ eq_refl eq_refl eq_refl eq_refl eq_refl)) eq_refl)).
Defined.

(** X13: in part_001, Install precommit hook starts [dotenvx ext precommit
    --install] without looking for environment files and without a
    selection prompt; once the child has closed, with whatever status, the
    success message is printed and the run ends with status 0. *)
Theorem precommit_dispatch (w : World) (code : option Z) :
  includes (argv w) "--help" = false ->
  includes (argv w) "-h" = false ->
  onSearchPath w = true ->
  hasEntry w ".env.keys" = true ->
  menuOperator w = Answer "precommit" ->
  closeCode (child w (Spawn "dotenvx" ["ext"; "precommit"; "--install"] true))
  = Some code ->
  exitStatus (NodeSpawn.run w) = Some 0%Z
  /\ prompts (trace (NodeSpawn.run w)) = ["What would you like to do?"]
  /\ spawned (trace (NodeSpawn.run w))
     = [lookup w; Spawn "dotenvx" ["ext"; "precommit"; "--install"] true]
  /\ In "👍 Precommit hook installed successfully"
        (stdoutLog (trace (NodeSpawn.run w))).
Proof.
  intros H1 H2 T K A C. rewrite (NodeSpawn_precommit_outcome w H1 H2 T K A).
  cbn zeta. rewrite C.
  cbn [exitStatus trace stdoutLog prompts spawned NodeSpawn.atMenu].
  repeat split. rewrite !in_app_iff. right. right. now left.
Qed.

Lemma precommit_dispatch_sample :
  exitStatus (NodeSpawn.run (childFails "precommit")) = Some 0%Z.
Proof.
  exact (proj1 (precommit_dispatch (childFails "precommit") (Some 2%Z)
    eq_refl eq_refl eq_refl eq_refl eq_refl eq_refl)).
Defined.

(** ** The Bun shell generations *)

Section Bun.

Implicit Types (events : list ChildEvent) (p : Proc).

Lemma echo_eq events :
  forall p,
    BunShell.echo events p
    = (closeCode events,
       mkProc (stdoutLog p ++ stdoutChunks (untilClose events))
              (stderrLog p ++ stderrChunks (untilClose events))
              (prompts p) (spawned p)).
Proof.
  induction events as [|[d|d|c] events IH]; intros p;
    cbn [BunShell.echo closeCode untilClose stdoutChunks stderrChunks].
  - destruct p. cbn. now rewrite !app_nil_r.
  - rewrite IH. cbn. now rewrite <- app_assoc.
  - rewrite IH. cbn. now rewrite <- app_assoc.
  - destruct p. cbn. now rewrite !app_nil_r.
Qed.

Lemma dollar_eq (w : World) (commandLine : string) p :
  BunShell.dollar w commandLine p
  = (match closeCode (child w (BunCall commandLine)) with
     | None => Pending
     | Some code =>
         if Z.eqb (code ?? 0)%Z 0 then Ret 0%Z
         else Throw (BunShell.ShellError (code ?? 0)%Z)
     end,
     mkProc
       (stdoutLog p ++ stdoutChunks (untilClose (child w (BunCall commandLine))))
       (stderrLog p ++ stderrChunks (untilClose (child w (BunCall commandLine))))
       (prompts p)
       (spawned p ++ [BunCall commandLine])).
Proof.
  unfold BunShell.dollar. rewrite echo_eq. cbn [start stdoutLog stderrLog prompts spawned].
  destruct (closeCode _) as [code|]; [|reflexivity].
  now destruct (Z.eqb (code ?? 0)%Z 0).
Qed.

Lemma filter_nonempty {A} (f : A -> bool) (l : list A) :
  (0 <? List.length (filter f l))%nat = existsb f l.
Proof.
  induction l as [|x l IH]; [reflexivity|]. cbn [filter existsb].
  destruct (f x); [reflexivity | exact IH].
Qed.

Lemma existsb_pointwise {A} (f g : A -> bool) (l : list A) :
  (forall x, f x = g x) -> existsb f l = existsb g l.
Proof.
  intros E. induction l as [|x l IH]; [reflexivity|]. cbn. now rewrite E, IH.
Qed.

Lemma BunShell_checkEnvKeysFile_eq (w : World) p :
  BunShell.checkEnvKeysFile w p
  = (Ret (existsb (fun e => String.eqb (name e) ".env.keys"
                            && negb (isDirectory e)) (cwd w)), p).
Proof.
  unfold BunShell.checkEnvKeysFile, ret, glob. rewrite length_map, filter_nonempty.
  do 2 f_equal. apply existsb_pointwise. intros e.
  cbn [ignore nodir existsb negb andb].
  rewrite (minimatch_literal ".env.keys" eq_refl), String.eqb_sym.
  now rewrite andb_true_r.
Qed.

End Bun.



Ltac bun_step :=
  match goal with
  | |- context [Z.eqb 0 0] => change (Z.eqb 0 0) with true
  | |- context [BunShell.dollar ?w ?c ?p] => rewrite (dollar_eq w c p)
  | |- context [match closeCode ?ev with _ => _ end] =>
      destruct (closeCode ev) as [?|]
  | |- context [if Z.eqb ?a ?b then _ else _] => destruct (Z.eqb a b)
  | |- context [match menuOperator ?w with _ => _ end] =>
      destruct (menuOperator w) as [?|?|]
  | |- context [if String.eqb ?a ?b then _ else _] => destruct (String.eqb a b)
  end;
  cbn -[BunShell.dollar findEnvFiles selectFiles String.eqb Z.eqb closeCode
        untilClose stdoutChunks stderrChunks app In].

(** X15: the menu-only Bun program hands only four fixed command lines to
    the shell, none of them built from a file name or from anything the
    operator typed, and a run that ends does so with status 0 or 1. *)
Theorem menu_only_commands (w : World) :
  (forall i, In i (spawned (trace (BunMenu.run w))) -> In i fixedCommands)
  /\ (exitStatus (BunMenu.run w) = None
      \/ exitStatus (BunMenu.run w) = Some 0%Z
      \/ exitStatus (BunMenu.run w) = Some 1%Z).
Proof.
  unfold BunMenu.run, runProcess, BunMenu.program, BunMenu.main,
    BunMenu.checkDotenvxInstallation, tryCatch, bind, promptList.
  cbn -[BunShell.dollar String.eqb Z.eqb closeCode untilClose stdoutChunks
        stderrChunks app In].
  repeat bun_step;
    (split; [|tauto]); intros i H; cbn in H; unfold fixedCommands; cbn;
    intuition (subst; auto).
Qed.

Ltac bun_cbn :=
  cbn -[BunShell.dollar BunShell.checkEnvKeysFile findEnvFiles selectFiles
        chosen checkboxLoop BunShell.fileArgs
        String.eqb Z.eqb closeCode untilClose stdoutChunks stderrChunks app In].

Ltac bun_walk :=
  match goal with
  | |- context [Z.eqb 0 0] => change (Z.eqb 0 0) with true
  | |- context [BunShell.dollar ?w ?c ?p] => rewrite (dollar_eq w c p)
  | |- context [BunShell.checkEnvKeysFile ?w ?p] =>
      rewrite (BunShell_checkEnvKeysFile_eq w p);
      destruct (existsb _ (cwd w))
  | |- context [match closeCode ?ev with _ => _ end] =>
      destruct (closeCode ev) as [?|]
  | |- context [if Z.eqb ?a ?b then _ else _] => destruct (Z.eqb a b)
  | |- context [match menuOperator ?w with _ => _ end] =>
      destruct (menuOperator w) as [?|?|]
  | |- context [if String.eqb ?a ?b then _ else _] => destruct (String.eqb a b)
  | |- context [selectFiles ?w (findEnvFiles ?c) ?a ?p] =>
      let F := fresh "F" in
      destruct (findEnvFiles c) as [|? ?] eqn:F;
      [ unfold selectFiles | rewrite selectFiles_eq by discriminate ]
  | |- context [match checkboxLoop (selectQuestion ?files ?a) ?s with _ => _ end] =>
      let L := fresh "L" in
      let N := fresh "N" in
      assert (N : files <> []) by discriminate;
      destruct (checkboxLoop (selectQuestion files a) s) as [?|?|?|] eqn:L;
      [ pose proof (chosen_incl files a s _ L);
        pose proof (chosen_nonempty files a s _ N L)
      | | now destruct (checkboxLoop_no_exit _ _ _ L) | ]
  | |- context [chosen ?files ?sel] =>
      destruct (chosen files sel) as [|? ?]; [contradiction|]
  end;
  bun_cbn.

Ltac bun_shape :=
  unfold bunCommand;
  try match goal with F : findEnvFiles _ = _ |- _ => rewrite F end;
  first
    [ left; reflexivity
    | right; left; reflexivity
    | right; right; left; reflexivity
    | do 3 right; eexists; split; [|split; [eassumption|left; reflexivity]];
      discriminate
    | do 3 right; eexists; split; [|split; [eassumption|right; reflexivity]];
      discriminate ].

(** X16: every command line the Bun shell generation (part_000, first
    document) hands to the shell is the version probe, its echo, the
    precommit installation, or [dotenvx encrypt] / [dotenvx decrypt]
    followed by [-f] and the space-joined names of a non-empty selection of
    files that [findEnvFiles] found; a run that ends does so with status 0
    or 1, and with 1 only before the menu has been shown. *)
Theorem bun_shell_commands (w : World) :
  (forall i, In i (spawned (trace (BunShell.run w))) -> bunCommand (cwd w) i)
  /\ (exitStatus (BunShell.run w) = None
      \/ exitStatus (BunShell.run w) = Some 0%Z
      \/ (exitStatus (BunShell.run w) = Some 1%Z
          /\ prompts (trace (BunShell.run w)) = [])).
Proof.
  unfold BunShell.run, runProcess, BunShell.program, BunShell.main,
    BunShell.checkDotenvxInstallation, tryCatch, bind, promptList.
  bun_cbn.
  repeat bun_walk.
  all: split; [|cbn; tauto].
  all: intros i Hi; cbn in Hi.
  all: repeat (destruct Hi as [Hi|Hi]; [subst i; bun_shape|]).
  all: contradiction.
Qed.

(** X17: [checkDotenvxInstallation] of the Bun shell generation never
    throws: it answers true exactly when both the preliminary [echo] and
    [dotenvx --version] close with status 0 (or none); when the [echo]
    closes with another status it answers false without running [dotenvx]
    at all. *)
Theorem bun_tool_probe (w : World) (p : Proc) :
  (forall e, fst (BunShell.checkDotenvxInstallation w p) <> Throw e)
  /\ (fst (BunShell.checkDotenvxInstallation w p) = Ret true
      <-> closesWell (child w echoProbe) = true
          /\ closesWell (child w versionProbe) = true)
  /\ (closes (child w echoProbe) = true ->
      closesWell (child w echoProbe) = false ->
      fst (BunShell.checkDotenvxInstallation w p) = Ret false
      /\ spawned (snd (BunShell.checkDotenvxInstallation w p))
         = (spawned p ++ [echoProbe])%list).
Proof.
  unfold BunShell.checkDotenvxInstallation, tryCatch, bind, closesWell,
    echoProbe, versionProbe.
  rewrite dollar_eq.
  destruct (closeCode (child w (BunCall ("echo " ++ quote ++ "dotenvx version" ++ quote))))
    as [c1|] eqn:C1.
  - destruct (Z.eqb (c1 ?? 0)%Z 0) eqn:E1.
    + rewrite dollar_eq.
      destruct (closeCode (child w (BunCall "dotenvx --version"))) as [c2|] eqn:C2.
      * destruct (Z.eqb (c2 ?? 0)%Z 0) eqn:E2; cbn;
          (split; [discriminate|]); (split; [|discriminate]);
          (split; [intros H; try discriminate H; split; reflexivity
                  | intros [H1 H2]; try discriminate H2; reflexivity]).
      * cbn. (split; [discriminate|]); (split; [|discriminate]).
        split; [intros H; discriminate H | intros [H1 H2]; discriminate H2].
    + cbn. (split; [discriminate|]). split.
      * split; [intros H; discriminate H | intros [H1 H2]; discriminate H1].
      * intros _ _. split; reflexivity.
  - cbn. (split; [discriminate|]). split.
    + split; [intros H; discriminate H | intros [H1 H2]; discriminate H1].
    + intros H. apply closeCode_closes in C1.
      discriminate (eq_trans (eq_sym C1) H).
Qed.

Lemma bun_tool_probe_sample :
  fst (BunShell.checkDotenvxInstallation echoFails startProc) = Ret false
  /\ spawned (snd (BunShell.checkDotenvxInstallation echoFails startProc))
     = [echoProbe].
Proof.
  exact (proj2 (proj2 (bun_tool_probe echoFails startProc)) eq_refl eq_refl).
Defined.

(** ** File discovery, further *)

Lemma kept_not_directory (e : DirEntry) : kept e = true -> isDirectory e = false.
Proof.
  unfold kept. intros H.
  apply andb_true_iff in H as [H _]. apply andb_true_iff in H as [_ H].
  now destruct (isDirectory e).
Qed.

Lemma NoDup_map_filter {A B} (g : A -> B) (f : A -> bool) (l : list A) :
  NoDup (map g l) -> NoDup (map g (filter f l)).
Proof.
  induction l as [|x l IH]; cbn [map filter]; intros H; [constructor|].
  inversion H as [|? ? Hx Hl]; subst.
  destruct (f x); [|now apply IH].
  cbn [map]. constructor; [|now apply IH].
  intros I. apply Hx. apply in_map_iff in I as [y [E Hy]].
  apply filter_In in Hy as [Hy _]. apply in_map_iff. now exists y.
Qed.

(** X18: every name [findEnvFiles] returns is the name of an entry of the
    working directory that is not a directory, and a directory whose entries
    have distinct names yields each name at most once. *)
Theorem findEnvFiles_lists_files (cwd : Directory) :
  (forall f, In f (findEnvFiles cwd) ->
     exists e, In e cwd /\ name e = f /\ isDirectory e = false)
  /\ (NoDup (map name cwd) -> NoDup (findEnvFiles cwd)).
Proof.
  split.
  - intros f H. destruct (findEnvFiles_entry cwd f H) as [e [He [E K]]].
    exists e. repeat split; trivial. now apply kept_not_directory.
  - intros H. rewrite findEnvFiles_kept. now apply NoDup_map_filter.
Qed.

Lemma findEnvFiles_lists_files_sample :
  NoDup (findEnvFiles sampleDir).
Proof.
  apply (proj2 (findEnvFiles_lists_files sampleDir)).
  repeat (constructor; [cbn; intuition discriminate|]). constructor.
Defined.

(** X19: discovery is stable: run over a directory that holds exactly the
    files it returned, [findEnvFiles] returns the same list again. *)
Theorem findEnvFiles_stable (cwd : Directory) :
  findEnvFiles (map regularFile (findEnvFiles cwd)) = findEnvFiles cwd.
Proof.
  rewrite (findEnvFiles_kept (map regularFile (findEnvFiles cwd))).
  assert (A : forall l, (forall f, In f l -> kept (regularFile f) = true) ->
                        map name (filter kept (map regularFile l)) = l).
  { induction l as [|f l IH]; intros H; [reflexivity|].
    cbn [map filter]. rewrite (H f (or_introl eq_refl)). cbn [map name regularFile].
    f_equal. apply IH. intros g Hg. apply H. now right. }
  apply A. intros f H.
  destruct (findEnvFiles_entry cwd f H) as [e [_ [<- K]]].
  assert (D := kept_not_directory e K).
  unfold kept in *. cbn [name isDirectory regularFile]. now rewrite D in K.
Qed.

(** ** The [@effect/cli] generation *)

Section EffectRunner.

Implicit Types (signals : list EffectCli.Signal) (p : Proc).

Lemma onSignal_resumed signals :
  forall l p r,
    EffectCli.resumed l = Some r ->
    EffectCli.resumed (fst (fold_left EffectCli.onSignal signals (l, p))) = Some r.
Proof.
  induction signals as [|sg signals IH]; intros l p r R; [exact R|].
  cbn [fold_left]. destruct sg as [[d|d|c]|e]; cbn [EffectCli.onSignal];
    apply IH; cbn; try exact R; now rewrite R.
Qed.

Lemma onSignal_settles signals :
  forall l p,
    EffectCli.resumed l = None ->
    EffectCli.resumed (fst (fold_left EffectCli.onSignal signals (l, p)))
    = match settlesAt signals with
      | Some (before, inl error) => Some (inl error)
      | Some (before, inr code) =>
          Some (inr {| stdout := EffectCli.stdoutBuf l ++ stdoutOf before;
                       stderr := EffectCli.stderrBuf l ++ stderrOf before;
                       exitCode := (code ?? 0)%Z |})
      | None => None
      end.
Proof.
  induction signals as [|sg signals IH]; intros l p R; [exact R|].
  cbn [fold_left settlesAt]. destruct sg as [[d|d|c]|e]; cbn [EffectCli.onSignal].
  - rewrite IH by exact R. cbn.
    destruct (settlesAt signals) as [[before [error|code]]|]; trivial.
    cbn. now rewrite append_assoc.
  - rewrite IH by exact R. cbn.
    destruct (settlesAt signals) as [[before [error|code]]|]; trivial.
    cbn. now rewrite append_assoc.
  - rewrite (onSignal_resumed signals _ p
               (inr {| stdout := EffectCli.stdoutBuf l;
                       stderr := EffectCli.stderrBuf l;
                       exitCode := (c ?? 0)%Z |})).
    + cbn. now rewrite !append_empty_r.
    + cbn. now rewrite R.
  - rewrite (onSignal_resumed signals _ p (inl e)); [reflexivity|].
    cbn. now rewrite R.
Qed.

Lemma onSignal_spawned signals :
  forall l p,
    spawned (snd (fold_left EffectCli.onSignal signals (l, p))) = spawned p
    /\ prompts (snd (fold_left EffectCli.onSignal signals (l, p))) = prompts p.
Proof.
  induction signals as [|sg signals IH]; intros l p; [now split|].
  cbn [fold_left]. destruct sg as [[d|d|c]|e]; cbn [EffectCli.onSignal];
    rewrite (proj1 (IH _ _)), (proj2 (IH _ _)); now split.
Qed.

Lemma onSignal_trace signals :
  forall l p,
    snd (fold_left EffectCli.onSignal signals (l, p))
    = mkProc (stdoutLog p ++ stdoutChunks (emitted signals))
             (stderrLog p ++ stderrChunks (emitted signals))
             (prompts p) (spawned p).
Proof.
  induction signals as [|sg signals IH]; intros l p.
  - destruct p. cbn. now rewrite !app_nil_r.
  - cbn [fold_left]. destruct sg as [[d|d|c]|e];
      cbn [EffectCli.onSignal emitted stdoutChunks stderrChunks];
      rewrite IH; cbn; now rewrite <- ?app_assoc.
Qed.

Lemma Effect_executeCommand_eq (env : EffectCli.Env) cmd args p :
  EffectCli.executeCommand env cmd args p
  = (match settlesAt (EffectCli.signals env (Spawn cmd args true)) with
     | Some (before, inl error) => Throw error
     | Some (before, inr code) =>
         Ret {| stdout := stdoutOf before; stderr := stderrOf before;
                exitCode := (code ?? 0)%Z |}
     | None => Pending
     end,
     mkProc
       (stdoutLog p
          ++ stdoutChunks (emitted (EffectCli.signals env (Spawn cmd args true))))
       (stderrLog p
          ++ stderrChunks (emitted (EffectCli.signals env (Spawn cmd args true))))
       (prompts p)
       (spawned p ++ [Spawn cmd args true])).
Proof.
  unfold EffectCli.executeCommand.
  assert (R := onSignal_settles (EffectCli.signals env (Spawn cmd args true))
                 {| EffectCli.stdoutBuf := EmptyString;
                    EffectCli.stderrBuf := EmptyString;
                    EffectCli.resumed := None |}
                 (start (Spawn cmd args true) p) eq_refl).
  assert (T := onSignal_trace (EffectCli.signals env (Spawn cmd args true))
                 {| EffectCli.stdoutBuf := EmptyString;
                    EffectCli.stderrBuf := EmptyString;
                    EffectCli.resumed := None |}
                 (start (Spawn cmd args true) p)).
  destruct (fold_left _ _ _) as [l p']. cbn [fst snd] in *. subst p'.
  rewrite R. cbn [start stdoutLog stderrLog prompts spawned].
  now destruct (settlesAt _) as [[before [error|code]]|].
Qed.

Lemma Effect_findEnvFiles_eq (env : EffectCli.Env) p :
  EffectCli.findEnvFiles env p = (Ret (discovered (EffectCli.world env)), p).
Proof. reflexivity. Qed.

Lemma Effect_selectFiles_eq (env : EffectCli.Env) files action p :
  files <> [] ->
  EffectCli.selectFilesInteractively env files action p
  = (match checkboxLoop (EffectCli.selectQuestion files action)
             (checkboxOperator (EffectCli.world env)) with
     | Ret selected => Ret (chosen files selected)
     | Throw e => Throw (selectionFailure e)
     | Exit c => Exit c
     | Pending => Pending
     end,
     showPrompt (message (EffectCli.selectQuestion files action)) p).
Proof.
  intros N. unfold EffectCli.selectFilesInteractively, EffectCli.tryPromise,
    tryCatch, chosen, selectionFailure.
  destruct files as [|f files]; [contradiction|].
  cbn [List.length Nat.eqb]. unfold bind, promptCheckbox.
  destruct (checkboxLoop _ _) as [sel| | |]; try reflexivity.
  now destruct (includes sel "ALL").
Qed.

Lemma Effect_validate_eq (env : EffectCli.Env) p :
  EffectCli.validatePrerequisites env p
  = let w := EffectCli.world env in
    if onSearchPath w then
      if hasEntry w ".env.keys" then
        (Ret true,
         mkProc (stdoutLog p
                   ++ ["dotenvx-interactive-cli"; "üëå dotenvx is installed"])
                (stderrLog p) (prompts p) (spawned p ++ [lookup w]))
      else
        (Throw (Error ".env.keys file not found"),
         mkProc (stdoutLog p ++ ["dotenvx-interactive-cli"; keyFileHint])
                (stderrLog p) (prompts p) (spawned p ++ [lookup w]))
    else
      (Throw (Error "dotenvx not installed"),
       mkProc (stdoutLog p
                 ++ ["dotenvx-interactive-cli";
                     "‚ùå dotenvx is not installed on your system.";
                     installHint])
              (stderrLog p) (prompts p) (spawned p ++ [lookup w])).
Proof.
  unfold EffectCli.validatePrerequisites, bind, checkDotenvxInstallation.
  cbn zeta.
  destruct (hasEntry (EffectCli.world env) ".env.keys") eqn:K.
  - cbn. rewrite checkEnvKeysFile_present by exact K.
    destruct (onSearchPath (EffectCli.world env)); cbn;
      now rewrite <- ?app_assoc.
  - cbn. rewrite checkEnvKeysFile_absent by exact K.
    destruct (onSearchPath (EffectCli.world env)); cbn;
      now rewrite <- ?app_assoc.
Qed.

End EffectRunner.

Ltac effect_cbn :=
  cbn -[EffectCli.validatePrerequisites EffectCli.findEnvFiles
        EffectCli.selectFilesInteractively EffectCli.executeCommand
        EffectCli.selectQuestion discovered chosen checkboxLoop selectionFailure
        settlesAt emitted onSearchPath hasEntry lookup join
        Z.eqb stdoutChunks stderrChunks stdoutOf stderrOf app In].

Ltac effect_walk :=
  match goal with
  | |- context [EffectCli.validatePrerequisites ?env ?p] =>
      rewrite (Effect_validate_eq env p); cbn zeta;
      destruct (onSearchPath (EffectCli.world env));
      [destruct (hasEntry (EffectCli.world env) ".env.keys")|]
  | |- context [EffectCli.findEnvFiles ?env ?p] =>
      let F := fresh "F" in
      rewrite (Effect_findEnvFiles_eq env p);
      destruct (discovered (EffectCli.world env)) as [|? ?] eqn:F
  | |- context [EffectCli.selectFilesInteractively ?env ?files ?a ?p] =>
      rewrite (Effect_selectFiles_eq env files a p) by discriminate
  | |- context [match checkboxLoop (EffectCli.selectQuestion ?files ?a) ?s
                with _ => _ end] =>
      let L := fresh "L" in
      destruct (checkboxLoop (EffectCli.selectQuestion files a) s)
        as [?|?|?|] eqn:L;
      [ | | now destruct (checkboxLoop_no_exit _ _ _ L) | ]
  | |- context [selectionFailure ?e] =>
      unfold selectionFailure;
      destruct (String.eqb (errName e) "ExitPromptError")
  | |- context [chosen ?files ?sel] =>
      let C := fresh "C" in
      destruct (chosen files sel) as [|? ?] eqn:C
  | |- context [EffectCli.executeCommand ?env ?c ?a ?p] =>
      rewrite (Effect_executeCommand_eq env c a p)
  | |- context [match settlesAt ?s with _ => _ end] =>
      destruct (settlesAt s) as [[? [?|?]]|]
  | |- context [if Z.eqb ?a ?b then _ else _] => destruct (Z.eqb a b)
  | |- context [match ?files with Some _ => _ | None => _ end] =>
      is_var files; destruct files as [[|? ?]|]
  end;
  effect_cbn.

(** X20: whatever command was parsed, and whatever the checks, the
    operator and the child do, a run of the [@effect/cli] generation that
    ends does so with status 0: every failure of a handler is caught and
    printed by the final [catchAll], after which nothing is left to fail. *)
Theorem effect_run_ends_with_0 (env : EffectCli.Env) :
  exitStatus (EffectCli.run env) = Some 0%Z
  \/ exitStatus (EffectCli.run env) = None.
Proof.
  unfold EffectCli.run, runProcess, EffectCli.program, EffectCli.app.
  destruct (EffectCli.invoked env) as [|files|files|];
    unfold EffectCli.mainCommand, EffectCli.encryptCommand,
      EffectCli.decryptCommand, EffectCli.precommitCommand,
      EffectCli.either, tryCatch, bind;
    effect_cbn; repeat effect_walk; cbn; tauto.
Qed.

Ltac effect_unfold :=
  unfold EffectCli.run, runProcess, EffectCli.program, EffectCli.app,
    EffectCli.mainCommand, EffectCli.encryptCommand, EffectCli.decryptCommand,
    EffectCli.precommitCommand, EffectCli.either, tryCatch, bind.

(** X21: in the [@effect/cli] generation every handler runs the
    prerequisite check first: when [dotenvx] is not on the search path, or
    it is but the working directory has no [.env.keys] entry, the run prints
    the remediation and the error, shows no prompt and starts nothing but
    the lookup; its exit status is 0 all the same. *)
Theorem effect_gate (env : EffectCli.Env) :
  onSearchPath (EffectCli.world env)
  && hasEntry (EffectCli.world env) ".env.keys" = false ->
  exitStatus (EffectCli.run env) = Some 0%Z
  /\ In (if onSearchPath (EffectCli.world env) then keyFileHint else installHint)
        (stdoutLog (trace (EffectCli.run env)))
  /\ stderrLog (trace (EffectCli.run env))
     = ["‚ùå An error occurred: Error: "
          ++ (if onSearchPath (EffectCli.world env)
              then ".env.keys file not found" else "dotenvx not installed")]
  /\ prompts (trace (EffectCli.run env)) = []
  /\ spawned (trace (EffectCli.run env)) = [lookup (EffectCli.world env)].
Proof.
  intros G. effect_unfold.
  destruct (EffectCli.invoked env) as [|files|files|];
    rewrite Effect_validate_eq; cbn zeta;
    destruct (onSearchPath (EffectCli.world env));
    try destruct (hasEntry (EffectCli.world env) ".env.keys");
    try discriminate G; cbn; repeat split; tauto.
Qed.

Lemma effect_gate_sample :
  exitStatus (EffectCli.run (effectEnv keyFileMissing EffectCli.Precommit))
  = Some 0%Z.
Proof.
  exact (proj1 (effect_gate (effectEnv keyFileMissing EffectCli.Precommit) eq_refl)).
Defined.



(** X23: in the [@effect/cli] generation, Encrypt and Decrypt start no
    [dotenvx] command when [findEnvFiles] finds nothing, even with file
    arguments on the command line: the run says that no [.env] files were
    found and ends. *)
Theorem explicit_files_need_discovery (env : EffectCli.Env)
        (files : option (list string)) :
  onSearchPath (EffectCli.world env) = true ->
  hasEntry (EffectCli.world env) ".env.keys" = true ->
  EffectCli.invoked env = EffectCli.Encrypt files
  \/ EffectCli.invoked env = EffectCli.Decrypt files ->
  discovered (EffectCli.world env) = [] ->
  exitStatus (EffectCli.run env) = Some 0%Z
  /\ stdoutLog (trace (EffectCli.run env))
     = [ "dotenvx-interactive-cli"; "üëå dotenvx is installed";
         "No .env files found in the current directory." ]
  /\ stderrLog (trace (EffectCli.run env)) = []
  /\ prompts (trace (EffectCli.run env)) = []
  /\ spawned (trace (EffectCli.run env)) = [lookup (EffectCli.world env)].
Proof.
  intros T K I D. effect_unfold.
  destruct I as [-> | ->];
    rewrite Effect_validate_eq; cbn zeta; rewrite T, K; effect_cbn;
    rewrite Effect_findEnvFiles_eq, D; cbn; repeat split.
Qed.

Lemma explicit_files_need_discovery_sample :
  spawned
    (trace (EffectCli.run
              (effectEnv (world keyFileOnly (Some 0%Z) NoReply [] [])
                 (EffectCli.Encrypt (Some ["config/prod.env"])))))
  = [SpawnSync "which" ["dotenvx"]].
Proof.
  exact (proj2 (proj2 (proj2 (proj2 (explicit_files_need_discovery
    (effectEnv (world keyFileOnly (Some 0%Z) NoReply [] [])
       (EffectCli.Encrypt (Some ["config/prod.env"])))
    (Some ["config/prod.env"]) eq_refl eq_refl (or_introl eq_refl) eq_refl))))).
Defined.

Lemma settlesAt_errored (before : list ChildEvent) (error : JsError)
      (rest : list EffectCli.Signal) :
  closes before = false ->
  settlesAt (map EffectCli.Emitted before ++ EffectCli.Errored error :: rest)
  = Some (before, inl error).
Proof.
  induction before as [|[d|d|c] before IH]; cbn; intros C;
    try discriminate; try reflexivity; now rewrite IH.
Qed.

Lemma settlesAt_closed (before : list ChildEvent) (code : option Z)
      (rest : list EffectCli.Signal) :
  closes before = false ->
  settlesAt (map EffectCli.Emitted before
               ++ EffectCli.Emitted (Close code) :: rest)
  = Some (before, inr code).
Proof.
  induction before as [|[d|d|c] before IH]; cbn; intros C;
    try discriminate; try reflexivity; now rewrite IH.
Qed.

Lemma settlesAt_open (events : list ChildEvent) :
  closes events = false -> settlesAt (map EffectCli.Emitted events) = None.
Proof.
  induction events as [|[d|d|c] events IH]; cbn; intros C;
    try discriminate; try reflexivity; now rewrite IH.
Qed.

(** X24: [executeCommand] of the [@effect/cli] generation settles with
    whichever comes first from the child: an ['error'] makes it fail with
    that error, a close makes it succeed with the output captured so far
    and the exit status (0 when there is none), whatever the status; until
    then it does not end, and what follows the first of the two changes
    nothing. *)
Theorem effect_executeCommand_first_wins (env : EffectCli.Env) (cmd : string)
        (args : list string) (p : Proc) (before : list ChildEvent)
        (rest : list EffectCli.Signal) :
  closes before = false ->
  (forall error,
      EffectCli.signals env (Spawn cmd args true)
      = (map EffectCli.Emitted before ++ EffectCli.Errored error :: rest)%list ->
      fst (EffectCli.executeCommand env cmd args p) = Throw error)
  /\ (forall code,
        EffectCli.signals env (Spawn cmd args true)
        = (map EffectCli.Emitted before
             ++ EffectCli.Emitted (Close code) :: rest)%list ->
        fst (EffectCli.executeCommand env cmd args p)
        = Ret {| stdout := stdoutOf before; stderr := stderrOf before;
                 exitCode := (code ?? 0)%Z |})
  /\ (EffectCli.signals env (Spawn cmd args true)
      = map EffectCli.Emitted before ->
      fst (EffectCli.executeCommand env cmd args p) = Pending).
Proof.
  intros C. rewrite Effect_executeCommand_eq. cbn [fst]. repeat split.
  - intros error ->. now rewrite settlesAt_errored.
  - intros code ->. now rewrite settlesAt_closed.
  - intros ->. now rewrite settlesAt_open.
Qed.

Lemma effect_executeCommand_first_wins_sample :
  fst (EffectCli.executeCommand
         {| EffectCli.world := world prepared (Some 0%Z) NoReply [] [];
            EffectCli.signals := fun _ =>
              [ EffectCli.Emitted (StderrData "sh: dotenvx: not found");
                EffectCli.Errored (Error "spawn ENOENT");
                EffectCli.Emitted (Close None) ];
            EffectCli.invoked := EffectCli.Precommit |}
         "dotenvx" ["ext"; "precommit"; "--install"] startProc)
  = Throw (Error "spawn ENOENT").
Proof.
  exact (proj1 (effect_executeCommand_first_wins
    {| EffectCli.world := world prepared (Some 0%Z) NoReply [] [];
       EffectCli.signals := fun _ =>
         [ EffectCli.Emitted (StderrData "sh: dotenvx: not found");
           EffectCli.Errored (Error "spawn ENOENT");
           EffectCli.Emitted (Close None) ];
       EffectCli.invoked := EffectCli.Precommit |}
    "dotenvx" ["ext"; "precommit"; "--install"] startProc
    [StderrData "sh: dotenvx: not found"] [EffectCli.Emitted (Close None)]
    eq_refl) (Error "spawn ENOENT") eq_refl).
Defined.



Lemma effect_selectable files action :
  selectable (choices (EffectCli.selectQuestion files action)) = "ALL" :: files.
Proof.
  cbn [EffectCli.selectQuestion choices selectable]. f_equal.
  induction files as [|f files IH]; cbn [map selectable]; [reflexivity | now rewrite IH].
Qed.

Lemma effect_chosen_incl files action script selected :
  checkboxLoop (EffectCli.selectQuestion files action) script = Ret selected ->
  incl (chosen files selected) files.
Proof.
  intros L. unfold chosen. destruct (includes selected "ALL") eqn:I.
  - apply incl_refl.
  - intros x Hx. assert (A := checkboxLoop_incl _ _ _ L x Hx).
    rewrite effect_selectable in A. destruct A as [<-|A]; [|exact A].
    apply includes_In in Hx. congruence.
Qed.

(** X26: in the [@effect/cli] generation, without file arguments, the
    prompt decides: an interrupted prompt ends the run with the farewell, a
    prompt rejected for another reason ends it with the error report, and a
    confirmation with nothing marked (this prompt accepts one) ends it with
    the notice that no files were selected; in all three cases no [dotenvx]
    command is started and the exit status is 0. *)
Theorem effect_selection_runs_nothing (env : EffectCli.Env) (action : string)
        (files : option (list string)) (d : string) (ds : list string) :
  onSearchPath (EffectCli.world env) = true ->
  hasEntry (EffectCli.world env) ".env.keys" = true ->
  (EffectCli.invoked env = EffectCli.Encrypt files /\ action = "encrypt")
  \/ (EffectCli.invoked env = EffectCli.Decrypt files /\ action = "decrypt") ->
  files = None \/ files = Some [] ->
  discovered (EffectCli.world env) = d :: ds ->
  (forall e,
      checkboxLoop (EffectCli.selectQuestion (d :: ds) action)
        (checkboxOperator (EffectCli.world env)) = Throw e ->
      exitStatus (EffectCli.run env) = Some 0%Z
      /\ spawned (trace (EffectCli.run env)) = [lookup (EffectCli.world env)]
      /\ (if String.eqb (errName e) "ExitPromptError"
          then In "üëã Selection cancelled. Until next time!"
                  (stdoutLog (trace (EffectCli.run env)))
               /\ stderrLog (trace (EffectCli.run env)) = []
          else stderrLog (trace (EffectCli.run env))
               = [ "‚ùå An error occurred: Error: Interactive selection failed: "
                     ++ showError e ]))
  /\ (checkboxLoop (EffectCli.selectQuestion (d :: ds) action)
        (checkboxOperator (EffectCli.world env)) = Ret [] ->
      exitStatus (EffectCli.run env) = Some 0%Z
      /\ spawned (trace (EffectCli.run env)) = [lookup (EffectCli.world env)]
      /\ stderrLog (trace (EffectCli.run env)) = []
      /\ In (if String.eqb action "encrypt"
             then "No files selected for encryption"
             else "No files selected for decryption")
            (stdoutLog (trace (EffectCli.run env)))).
Proof.
  intros T K I N D. effect_unfold.
  destruct I as [[-> ->]|[-> ->]]; destruct N as [-> | ->];
    rewrite Effect_validate_eq; cbn zeta; rewrite T, K; effect_cbn;
    rewrite Effect_findEnvFiles_eq, D; effect_cbn;
    rewrite Effect_selectFiles_eq by discriminate;
    (split; [intros e L | intros L]); rewrite L; effect_cbn;
    try (unfold selectionFailure;
         destruct (String.eqb (errName e) "ExitPromptError"));
    cbn; repeat split; tauto.
Qed.

Lemma effect_selection_runs_nothing_sample :
  exitStatus (EffectCli.run (effectEnv operatorCancels (EffectCli.Decrypt None)))
  = Some 0%Z
  /\ spawned (trace (EffectCli.run (effectEnv operatorCancels (EffectCli.Decrypt None))))
     = [SpawnSync "which" ["dotenvx"]].
Proof.
  destruct (proj1 (effect_selection_runs_nothing
    (effectEnv operatorCancels (EffectCli.Decrypt None)) "decrypt" None
    ".env" [".env.local"] eq_refl eq_refl
    (or_intror (conj eq_refl eq_refl)) (or_introl eq_refl) eq_refl)
    ExitPromptError eq_refl) as [E [S _]].
  split; [exact E | exact S].
Defined.

Ltac effect_shape :=
  first
    [ left; reflexivity
    | right; left; reflexivity
    | right; right;
      refine (ex_intro _ _ (ex_intro _ _ (conj _ (conj _ (conj eq_refl _)))));
      [ first [left; reflexivity | right; reflexivity]
      | discriminate
      | first [ left; reflexivity
              | right; left; reflexivity
              | right; right;
                match goal with
                | L : checkboxLoop _ _ = Ret _, C : chosen _ _ = _ |- _ =>
                    rewrite <- C; exact (effect_chosen_incl _ _ _ _ L)
                end ] ] ].

(** X27: a run of the [@effect/cli] generation starts, besides the
    lookup, at most one subprocess: [dotenvx], through a shell, with [ext
    precommit --install] or with [encrypt -f] / [decrypt -f] and a
    non-empty list of files, which is either the list given on the command
    line or a selection among the files [findEnvFiles] found. *)
Theorem effect_one_command (env : EffectCli.Env) :
  spawned (trace (EffectCli.run env)) = [lookup (EffectCli.world env)]
  \/ spawned (trace (EffectCli.run env))
     = [lookup (EffectCli.world env);
        Spawn "dotenvx" ["ext"; "precommit"; "--install"] true]
  \/ exists action files,
       (action = "encrypt" \/ action = "decrypt")
       /\ files <> []
       /\ spawned (trace (EffectCli.run env))
          = [lookup (EffectCli.world env);
             Spawn "dotenvx" (action :: "-f" :: files) true]
       /\ (EffectCli.invoked env = EffectCli.Encrypt (Some files)
           \/ EffectCli.invoked env = EffectCli.Decrypt (Some files)
           \/ incl files (discovered (EffectCli.world env))).
Proof.
  effect_unfold.
  destruct (EffectCli.invoked env) as [|files|files|] eqn:I;
    effect_cbn; repeat effect_walk; cbn; effect_shape.
Qed.
